(** * AlphaFold bridge: submission, polling and result assembly

    A shallow embedding of [src/python/alphafold_bridge.py].

    The Python code talks to three things outside itself: the HTTP
    transport ([requests.post], [requests.get]), the clock ([time.sleep])
    and standard error ([print]).  Every such interaction is recorded, in
    order, in a [trace]; the transport's answers come from an oracle that
    sees the whole trace so far and the request.  Python exceptions (the
    ones deriving from [Exception], which is what the code's handlers
    catch) are an explicit [Raise] outcome.

    Configurations, JSON bodies and result records hold the values JSON
    has; [print] and [time.sleep] themselves do not fail.  [str()] of a
    value inside an f-string is left to the runtime: its text, and, for a
    value the caller supplies, whether it raises (an integer beyond the
    interpreter's digit limit does).  A value decoded from JSON always
    formats, an integer too long to format being too long to decode. *)

From Stdlib Require Import ZArith List String Ascii Bool Lia Floats.
From Stdlib Require Import DecimalString.
Import ListNotations.
Open Scope string_scope.
Open Scope list_scope.
Open Scope Z_scope.
Set Warnings "-register-all".

Infix "+:+" := String.append (at level 60, right associativity).

(** The double-quote character, as a one-character string. *)
Definition dquote : string := String (Ascii.ascii_of_nat 34) EmptyString.

(** ** Python values *)

(** The values that travel through configurations, JSON bodies and result
    records: [None], booleans, integers, floats, strings, lists and
    dictionaries with string keys (in insertion order). *)
Inductive pyval : Type :=
| VNone
| VBool (b : bool)
| VInt (z : Z)
| VFloat (f : float)
| VStr (s : string)
| VList (l : list pyval)
| VDict (d : list (string * pyval)).

Definition dict := list (string * pyval).

(** An exception object: its class and what [str(e)] gives. *)
Record exn := mkExn { exn_type : string; exn_str : string }.

Inductive outcome (A : Type) : Type :=
| Ok (a : A)
| Raise (e : exn).
Arguments Ok {A} a.
Arguments Raise {A} e.

Definition type_name (v : pyval) : string :=
  match v with
  | VNone => "NoneType"
  | VBool _ => "bool"
  | VInt _ => "int"
  | VFloat _ => "float"
  | VStr _ => "str"
  | VList _ => "list"
  | VDict _ => "dict"
  end.

Definition KeyError (key_repr : string) : exn := mkExn "KeyError" key_repr.
Definition IndexError (msg : string) : exn := mkExn "IndexError" msg.
Definition TypeError (msg : string) : exn := mkExn "TypeError" msg.
Definition AttributeError (v : pyval) (attr : string) : exn :=
  mkExn "AttributeError"
        ("'" +:+ type_name v +:+ "' object has no attribute '" +:+ attr +:+ "'").

(** [str(n)] for an integer: decimal digits, with a leading minus sign. *)
Definition str_of_Z (z : Z) : string := NilZero.string_of_int (Z.to_int z).

(** *** Dictionaries *)

Fixpoint dict_lookup (d : dict) (k : string) : option pyval :=
  match d with
  | [] => None
  | (k', v) :: d' => if String.eqb k' k then Some v else dict_lookup d' k
  end.

(** [d[k]] for a literal key [k] (its [repr] is the key between quotes). *)
Definition dict_index (d : dict) (k : string) : outcome pyval :=
  match dict_lookup d k with
  | Some v => Ok v
  | None => Raise (KeyError ("'" +:+ k +:+ "'"))
  end.

(** [d.get(k, default)] on a dictionary. *)
Definition dict_get (d : dict) (k : string) (default : pyval) : pyval :=
  match dict_lookup d k with
  | Some v => v
  | None => default
  end.

(** [v.get(k, default)] on a value decoded from JSON: only dictionaries
    have the method. *)
Definition py_get (v : pyval) (k : string) (default : pyval) : outcome pyval :=
  match v with
  | VDict d => Ok (dict_get d k default)
  | _ => Raise (AttributeError v "get")
  end.

(** *** Comparisons with literals *)

(** [v == 'lit']. *)
Definition py_eq_str (v : pyval) (lit : string) : bool :=
  match v with
  | VStr s => String.eqb s lit
  | _ => false
  end.

(** Exact comparison of a float with an integer, as Python does it. *)
Definition float_eq_Z (f : float) (z : Z) : bool :=
  match Prim2SF f with
  | S754_zero _ => z =? 0
  | S754_finite s m e =>
      let v := if s then Z.neg m else Z.pos m in
      if 0 <=? e then z =? v * 2 ^ e else v =? z * 2 ^ (- e)
  | _ => false
  end.

(** [v == n] for an integer literal [n] ([True == 1] and [1.0 == 1] hold). *)
Definition py_eq_int (v : pyval) (n : Z) : bool :=
  match v with
  | VInt z => z =? n
  | VBool b => (if b then 1 else 0) =? n
  | VFloat f => float_eq_Z f n
  | _ => false
  end.

(** Truth value of an optional string ([None] and the empty string are
    false). *)
Definition truthy (o : option string) : bool :=
  match o with
  | Some s => negb (String.eqb s EmptyString)
  | None => false
  end.

(** [a or b]. *)
Definition py_or (a b : option string) : option string :=
  if truthy a then a else b.

(** An optional string inside an f-string. *)
Definition fmt_opt (o : option string) : string :=
  match o with
  | Some s => s
  | None => "None"
  end.

(** *** Sequences *)

(** [len(v)]. *)
Definition py_len (v : pyval) : outcome nat :=
  match v with
  | VStr s => Ok (String.length s)
  | VList l => Ok (List.length l)
  | VDict d => Ok (List.length d)
  | _ => Raise (TypeError ("object of type '" +:+ type_name v +:+ "' has no len()"))
  end.

(** The items [for x in v] goes through. *)
Definition py_iter (v : pyval) : outcome (list pyval) :=
  match v with
  | VList l => Ok l
  | VStr s => Ok (map (fun c => VStr (String c EmptyString)) (list_ascii_of_string s))
  | VDict d => Ok (map (fun kv => VStr (fst kv)) d)
  | _ => Raise (TypeError ("'" +:+ type_name v +:+ "' object is not iterable"))
  end.

(** [v[i]] for an index [i >= 0] (the indices [enumerate] produces).  A
    dictionary with string keys has no integer key. *)
Definition py_getitem (v : pyval) (i : nat) : outcome pyval :=
  match v with
  | VList l =>
      match nth_error l i with
      | Some x => Ok x
      | None => Raise (IndexError "list index out of range")
      end
  | VStr s =>
      match String.get i s with
      | Some c => Ok (VStr (String c EmptyString))
      | None => Raise (IndexError "string index out of range")
      end
  | VDict _ => Raise (KeyError (str_of_Z (Z.of_nat i)))
  | _ => Raise (TypeError ("'" +:+ type_name v +:+ "' object is not subscriptable"))
  end.

(** How many times [for _ in range(v)] runs. *)
Definition py_range (v : pyval) : outcome nat :=
  match v with
  | VInt z => Ok (Z.to_nat z)
  | VBool b => Ok (if b then 1%nat else 0%nat)
  | _ => Raise (TypeError ("'" +:+ type_name v +:+ "' object cannot be interpreted as an integer"))
  end.

(** ** The outside world *)

Inductive http_method := POST | GET.

(** What [requests.post] and [requests.get] are called with. *)
Record request := mkRequest {
  req_method : http_method;
  req_url : pyval;
  req_json : option pyval;
  req_headers : option pyval;
  req_timeout : Z
}.

(** What the code reads from a response: [status_code], [text] and the
    result of [json()], which may raise. *)
Record response := mkResponse {
  status_code : Z;
  text : string;
  json : outcome pyval
}.

Inductive event :=
| EHttp (r : request)
| ESleep (seconds : Z)
| EPrint (line : string).

Definition trace := list event.

(** What the code does not define itself: [str()] of a value inside an
    f-string, [sys.version], and the transport.  [py_str v] is the text of
    [str(v)] when the conversion succeeds and [str_raises v] the exception
    it raises when it does not. *)
Class Runtime := {
  py_str : pyval -> string;
  sys_version : string;
  net : trace -> request -> outcome response;
  str_raises : pyval -> option exn
}.

(** [{v}] inside an f-string, for a value the caller supplies. *)
Definition format_value {rt : Runtime} (v : pyval) : outcome string :=
  match str_raises v with
  | Some e => Raise e
  | None => Ok (py_str v)
  end.

(** ** Computations with effects and exceptions *)

Definition M (A : Type) : Type := trace -> outcome A * trace.

Definition ret {A} (a : A) : M A := fun t => (Ok a, t).

Definition bind {A B} (m : M A) (k : A -> M B) : M B :=
  fun t =>
    match m t with
    | (Ok a, t') => k a t'
    | (Raise e, t') => (Raise e, t')
    end.

Definition lift {A} (o : outcome A) : M A := fun t => (o, t).

(** [try: m  except Exception as e: handler e]. *)
Definition try_except {A} (m : M A) (handler : exn -> M A) : M A :=
  fun t =>
    match m t with
    | (Ok a, t') => (Ok a, t')
    | (Raise e, t') => handler e t'
    end.

Notation "x <- m ;; k" := (bind m (fun x => k))
  (at level 61, m at next level, right associativity).
Notation "m ;;; k" := (bind m (fun _ => k))
  (at level 61, right associativity).

(** [for x in xs: body x], where the body may [return] a value from the
    enclosing function ([Some r]) or fall through to the next item. *)
Fixpoint for_each {A R} (xs : list A) (body : A -> M (option R)) : M (option R) :=
  match xs with
  | [] => ret None
  | x :: rest =>
      r <- body x ;;
      match r with
      | Some v => ret (Some v)
      | None => for_each rest body
      end
  end.

Definition print (line : string) : M unit := fun t => (Ok tt, t ++ [EPrint line]).
Definition sleep (seconds : Z) : M unit := fun t => (Ok tt, t ++ [ESleep seconds]).

Definition http_count (t : trace) : nat :=
  List.length (filter (fun e => match e with EHttp _ => true | _ => false end) t).

Definition sleep_count (t : trace) : nat :=
  List.length (filter (fun e => match e with ESleep _ => true | _ => false end) t).

(** ** The bridge *)

Record AlphaFoldBridge := mkBridge {
  api_key : option string;
  api_base_url : string;
  colabfold_available : bool
}.

Definition failed : pyval := VStr "failed".
Definition success : pyval := VStr "success".

Section Bridge.
Context {rt : Runtime}.

Definition http (r : request) : M response := fun t => (net t r, t ++ [EHttp r]).

Definition requests_post (url : string) (payload headers : pyval) : M response :=
  http (mkRequest POST (VStr url) (Some payload) (Some headers) 30).

Definition requests_get (url : pyval) (headers : option pyval) : M response :=
  http (mkRequest GET url None headers 30).

(** [__init__] and [_check_dependencies]: [explicit] is the constructor's
    argument, [environ] what [os.getenv('ALPHAFOLD_API_KEY')] gives and
    [colabfold_importable] whether [import colabfold] succeeds. *)
Definition __init__ (explicit environ : option string) (colabfold_importable : bool)
  : M AlphaFoldBridge :=
  (if colabfold_importable
   then print "✓ ColabFold is available for local prediction"
   else print "⚠ ColabFold not installed. API mode only.") ;;;
  ret (mkBridge (py_or explicit environ)
                "https://api.alphafoldserver.com/v1"
                colabfold_importable).

Definition auth_headers (self : AlphaFoldBridge) : pyval :=
  VDict [("Authorization", VStr ("Bearer " +:+ fmt_opt (api_key self)));
         ("Content-Type", VStr "application/json")].

Definition max_polls : nat := 60.
Definition poll_interval : Z := 10.

Definition job_failed_result (job_id : pyval) : dict :=
  [("error", VStr "Prediction job failed"); ("status", failed); ("job_id", job_id)].

Definition timeout_result (job_id : pyval) : dict :=
  [("error", VStr "Job timeout after 10 minutes"); ("status", failed); ("job_id", job_id)].

(** The body of the polling loop (lines 172-206): [Some r] is [return r]. *)
Definition poll_attempt (status_url : string) (job_id headers : pyval)
  : M (option dict) :=
  try_except
    (response <- requests_get (VStr status_url) (Some headers) ;;
     if status_code response =? 200 then
       job_data <- lift (json response) ;;
       status <- lift (py_get job_data "status" VNone) ;;
       if py_eq_str status "completed" then
         pdb_url <- lift (py_get job_data "pdbUrl" VNone) ;;
         confidence_url <- lift (py_get job_data "confidenceUrl" VNone) ;;
         pdb_response <- requests_get pdb_url None ;;
         let pdb_data := text pdb_response in
         confidence_response <- requests_get confidence_url None ;;
         confidence_data <- lift (json confidence_response) ;;
         confidence_scores <- lift (py_get confidence_data "plddt" (VList [])) ;;
         mean_plddt <- lift (py_get confidence_data "meanPlddt" (VFloat 0)) ;;
         pae_data <- lift (py_get confidence_data "pae" VNone) ;;
         ret (Some [("status", success);
                    ("job_id", job_id);
                    ("pdb_data", VStr pdb_data);
                    ("confidence_scores", confidence_scores);
                    ("mean_plddt", mean_plddt);
                    ("pae_data", pae_data)])
       else if py_eq_str status "failed" then
         ret (Some (job_failed_result job_id))
       else
         print ("Job status: " +:+ py_str status +:+ ". Waiting...") ;;;
         sleep poll_interval ;;;
         ret None
     else ret None)
    (fun e =>
       print ("Polling error: " +:+ exn_str e +:+ ". Retrying...") ;;;
       sleep poll_interval ;;;
       ret None).

(** The loop of lines 171-206 over [range(attempts)]. *)
Definition poll_loop (status_url : string) (job_id headers : pyval) (attempts : nat)
  : M (option dict) :=
  for_each (seq 0 attempts) (fun _attempt => poll_attempt status_url job_id headers).

Definition _poll_job_status (self : AlphaFoldBridge) (job_id headers : pyval)
  : M dict :=
  let status_url := api_base_url self +:+ "/jobs/" +:+ py_str job_id in
  r <- poll_loop status_url job_id headers max_polls ;;
  match r with
  | Some result => ret result
  | None => ret (timeout_result job_id)
  end.

Definition _predict_via_api (self : AlphaFoldBridge)
    (sequence job_name num_models use_templates : pyval) : M dict :=
  if negb (truthy (api_key self)) then
    ret [("error", VStr "AlphaFold API key not set. Set ALPHAFOLD_API_KEY environment variable.");
         ("status", failed);
         ("message", VStr "API mode requires authentication")]
  else
    try_except
      (let headers := auth_headers self in
       let payload :=
         VDict [("sequences", VList [VDict [("sequence", sequence)]]);
                ("modelPreset",
                 VStr (if py_eq_int num_models 1 then "monomer" else "multimer"));
                ("numPredictions", num_models);
                ("useTemplates", use_templates)] in
       let submit_url := api_base_url self +:+ "/predict" in
       job_name_text <- lift (format_value job_name) ;;
       print ("Submitting prediction job: " +:+ job_name_text) ;;;
       response <- requests_post submit_url payload headers ;;
       if status_code response =? 202 then
         job_data <- lift (json response) ;;
         job_id <- lift (py_get job_data "jobId" VNone) ;;
         print ("Job ID: " +:+ py_str job_id +:+ ". Polling for completion...") ;;;
         _poll_job_status self job_id headers
       else
         ret [("error", VStr ("API request failed: " +:+ str_of_Z (status_code response)));
              ("status", failed);
              ("message", VStr (text response))])
      (fun e =>
         ret [("error", VStr (exn_str e));
              ("status", failed);
              ("message", VStr ("AlphaFold API prediction failed: " +:+ exn_str e))]).

Definition _predict_via_colabfold (self : AlphaFoldBridge)
    (sequence job_name num_models : pyval) : M dict :=
  if negb (colabfold_available self) then
    ret [("error", VStr "ColabFold not installed");
         ("status", failed);
         ("message", VStr "Install ColabFold: pip install colabfold")]
  else
    try_except
      (ret [("error", VStr "Local ColabFold prediction not yet implemented");
            ("status", failed);
            ("message", VStr ("Use API mode for now: mode=" +:+ dquote +:+ "api" +:+ dquote))])
      (fun e =>
         ret [("error", VStr (exn_str e));
              ("status", failed);
              ("message", VStr ("ColabFold prediction failed: " +:+ exn_str e))]).

Definition predict_structure (self : AlphaFoldBridge) (config : dict) : M dict :=
  sequence <- lift (dict_index config "sequence") ;;
  let job_name := dict_get config "job_name" (VStr "holoscript_prediction") in
  let mode := dict_get config "mode" (VStr "api") in
  let num_models := dict_get config "num_models" (VInt 5) in
  let use_templates := dict_get config "use_templates" (VBool false) in
  if py_eq_str mode "api" then
    _predict_via_api self sequence job_name num_models use_templates
  else if py_eq_str mode "local" then
    _predict_via_colabfold self sequence job_name num_models
  else
    mode_text <- lift (format_value mode) ;;
    ret [("error", VStr ("Unknown prediction mode: " +:+ mode_text));
         ("status", failed)].

(** Lines 282-285: the chains built from the items of [sequences], item
    number [i] first. *)
Fixpoint build_chains (stoichiometry : pyval) (i : nat) (items : list pyval)
    (chains : list pyval) : outcome (list pyval) :=
  match items with
  | [] => Ok chains
  | seq :: rest =>
      match py_getitem stoichiometry i with
      | Raise e => Raise e
      | Ok count =>
          match py_range count with
          | Raise e => Raise e
          | Ok n =>
              build_chains stoichiometry (S i) rest
                           (chains ++ repeat (VDict [("sequence", seq)]) n)
          end
      end
  end.

Definition predict_multimer (self : AlphaFoldBridge) (config : dict) : M dict :=
  sequences <- lift (dict_index config "sequences") ;;
  n <- lift (py_len sequences) ;;
  let stoichiometry := dict_get config "stoichiometry" (VList (repeat (VInt 1) n)) in
  let job_name := dict_get config "job_name" (VStr "multimer_prediction") in
  if negb (truthy (api_key self)) then
    ret [("error", VStr "Multimer prediction requires API access");
         ("status", failed)]
  else
    try_except
      (let headers := auth_headers self in
       items <- lift (py_iter sequences) ;;
       chains <- lift (build_chains stoichiometry 0 items []) ;;
       let payload :=
         VDict [("sequences", VList chains);
                ("modelPreset", VStr "multimer");
                ("numPredictions", VInt 5)] in
       let submit_url := api_base_url self +:+ "/predict" in
       response <- requests_post submit_url payload headers ;;
       if status_code response =? 202 then
         job_data <- lift (json response) ;;
         job_id <- lift (py_get job_data "jobId" VNone) ;;
         _poll_job_status self job_id headers
       else
         ret [("error", VStr ("Multimer API request failed: " +:+ str_of_Z (status_code response)));
              ("status", failed)])
      (fun e =>
         ret [("error", VStr (exn_str e));
              ("status", failed);
              ("message", VStr ("Multimer prediction failed: " +:+ exn_str e))]).

Definition get_status (self : AlphaFoldBridge) : M dict :=
  ret [("api_available", VBool (truthy (api_key self)));
       ("colabfold_available", VBool (colabfold_available self));
       ("python_version", VStr sys_version);
       ("module", VStr "alphafold_bridge");
       ("version", VStr "1.0.0")].

End Bridge.

(** ** Vocabulary of the statements *)

(** A record is tagged when its [status] is ['success'] or ['failed']. *)
Definition tagged (d : dict) : Prop :=
  dict_lookup d "status" = Some success \/ dict_lookup d "status" = Some failed.

(** What a status response reports to the poller: the [status] field of a
    200 response whose body decodes to a JSON object ([None] when the field
    is missing). *)
Definition reported_status (r : response) : option pyval :=
  if status_code r =? 200 then
    match json r with
    | Ok (VDict d) => Some (dict_get d "status" VNone)
    | _ => None
    end
  else None.

(** The statuses on which the poller leaves the loop. *)
Definition is_terminal (status : pyval) : bool :=
  py_eq_str status "completed" || py_eq_str status "failed".

(** [m] returns normally from every trace, with a value satisfying [P]. *)
Definition returns {A} (P : A -> Prop) (m : M A) : Prop :=
  forall t, exists a t', m t = (Ok a, t') /\ P a.

(** Whenever [m] returns normally, its value satisfies [P]. *)
Definition ensures {A} (P : A -> Prop) (m : M A) : Prop :=
  forall t, match m t with
            | (Ok a, _) => P a
            | (Raise _, _) => True
            end.

(** [m] only adds events to the trace. *)
Definition extends {A} (m : M A) : Prop :=
  forall t, exists ext, snd (m t) = t ++ ext.

(** What an attempt may hand back: nothing, or a tagged record. *)
Definition tagged_or_none (o : option dict) : Prop :=
  match o with
  | Some d => tagged d
  | None => True
  end.

(** One chain entry of a submission payload. *)
Definition chain (sequence : pyval) : pyval := VDict [("sequence", sequence)].

(** The specification's chain list: each sequence replicated by its count,
    in input order. *)
Definition replicate_by_stoichiometry (sequences : list pyval) (counts : list Z)
  : list pyval :=
  flat_map (fun sc => repeat (chain (fst sc)) (Z.to_nat (snd sc)))
           (combine sequences counts).

Section Queries.
Context {rt : Runtime}.

Definition status_url (self : AlphaFoldBridge) (job_id : pyval) : string :=
  api_base_url self +:+ "/jobs/" +:+ py_str job_id.

(** The status query of one poll attempt. *)
Definition status_query (self : AlphaFoldBridge) (job_id headers : pyval) : request :=
  mkRequest GET (VStr (status_url self job_id)) None (Some headers) 30.

(** The fetch of an artifact from the location the completion payload names. *)
Definition artifact_query (location : pyval) : request :=
  mkRequest GET location None None 30.

(** The submission of a payload. *)
Definition submit_query (self : AlphaFoldBridge) (payload : pyval) : request :=
  mkRequest POST (VStr (api_base_url self +:+ "/predict")) (Some payload)
            (Some (auth_headers self)) 30.

(** The payload [predict_multimer] submits for a chain list. *)
Definition multimer_payload (chains : list pyval) : pyval :=
  VDict [("sequences", VList chains);
         ("modelPreset", VStr "multimer");
         ("numPredictions", VInt 5)].

(** The payload [_predict_via_api] submits. *)
Definition structure_payload (sequence num_models use_templates : pyval) : pyval :=
  VDict [("sequences", VList [VDict [("sequence", sequence)]]);
         ("modelPreset",
          VStr (if py_eq_int num_models 1 then "monomer" else "multimer"));
         ("numPredictions", num_models);
         ("useTemplates", use_templates)].

Definition submitting_line (job_name : pyval) : string :=
  "Submitting prediction job: " +:+ py_str job_name.

Definition waiting_line (status : pyval) : string :=
  "Job status: " +:+ py_str status +:+ ". Waiting...".

Definition polling_error_line (e : exn) : string :=
  "Polling error: " +:+ exn_str e +:+ ". Retrying...".

End Queries.

(** ** Concrete runtimes, for examples *)

(** [str()] of the scalar values (other values are shown by a placeholder:
    the examples format scalars only). *)
Definition scalar_str (v : pyval) : string :=
  match v with
  | VNone => "None"
  | VBool true => "True"
  | VBool false => "False"
  | VInt z => str_of_Z z
  | VStr s => s
  | _ => "<value>"
  end.

(** The least integer of more than 4300 digits. *)
Definition ten_to_4300 : Z := Eval vm_compute in 10 ^ 4300.

(** Whether [str()] meets an integer of more than 4300 digits, the default
    limit of the conversion (containers are shown through their items). *)
Fixpoint has_long_integer (v : pyval) : bool :=
  match v with
  | VInt z => ten_to_4300 <=? Z.abs z
  | VList l => existsb has_long_integer l
  | VDict d => existsb (fun kv => match kv with (_, x) => has_long_integer x end) d
  | _ => false
  end.

Definition digit_limit_error : exn :=
  mkExn "ValueError"
        "Exceeds the limit (4300 digits) for integer string conversion; use sys.set_int_max_str_digits() to increase the limit".

Definition digit_limit (v : pyval) : option exn :=
  if has_long_integer v then Some digit_limit_error else None.

(** A transport that answers by the number of calls made so far, under an
    interpreter with the default digit limit. *)
Definition scripted (answers : nat -> request -> outcome response) : Runtime :=
  {| py_str := scalar_str;
     sys_version := "3.11.4";
     net := fun t q => answers (http_count t) q;
     str_raises := digit_limit |}.

Definition ConnectionError : exn := mkExn "ConnectionError" "connection refused".
Definition JSONDecodeError : exn :=
  mkExn "JSONDecodeError" "Expecting value: line 1 column 1 (char 0)".

Definition status_response (status : string) : response :=
  mkResponse 200 "<status body>" (Ok (VDict [("status", VStr status)])).

Definition completed_payload : dict :=
  [("status", VStr "completed");
   ("pdbUrl", VStr "https://files.example/model.pdb");
   ("confidenceUrl", VStr "https://files.example/confidence.json")].

Definition completed_response : response :=
  mkResponse 200 "<status body>" (Ok (VDict completed_payload)).

Definition accepted_response : response :=
  mkResponse 202 "<accepted>" (Ok (VDict [("jobId", VStr "job-1")])).

Definition rejected_response : response :=
  mkResponse 500 "upstream exploded" (Raise JSONDecodeError).

Definition busy_response : response :=
  mkResponse 503 "busy" (Raise JSONDecodeError).

Definition rt_always_pending : Runtime :=
  scripted (fun _ _ => Ok (status_response "pending")).

Definition rt_always_busy : Runtime :=
  scripted (fun _ _ => Ok busy_response).

(** Two pending answers, then a failed one. *)
Definition rt_pending_then_failed : Runtime :=
  scripted (fun n _ => if (n <? 2)%nat then Ok (status_response "pending")
                       else Ok (status_response "failed")).

(** Two pending answers, then a status the code does not know. *)
Definition rt_pending_then_queued : Runtime :=
  scripted (fun n _ => if (n <? 2)%nat then Ok (status_response "pending")
                       else Ok (status_response "queued")).

(** Every status query says completed; every fetch of the structure file
    fails (queries and fetches alternate). *)
Definition rt_structure_fetch_fails : Runtime :=
  scripted (fun n _ => if Nat.even n then Ok completed_response
                       else Raise ConnectionError).

(** The same with a structure file that arrives and a confidence fetch that
    fails (a round is query, fetch, fetch). *)
Definition rt_confidence_fetch_fails : Runtime :=
  scripted (fun n _ => match (n mod 3)%nat with
                       | O => Ok completed_response
                       | S O => Ok (mkResponse 200 "ATOM ..." (Raise JSONDecodeError))
                       | _ => Raise ConnectionError
                       end).

(** The submission is turned down. *)
Definition rt_rejected : Runtime :=
  scripted (fun _ _ => Ok rejected_response).

(** A transport nobody should reach. *)
Definition rt_offline : Runtime :=
  scripted (fun _ _ => Raise ConnectionError).

Definition demo_bridge : AlphaFoldBridge :=
  mkBridge (Some "secret") "https://api.alphafoldserver.com/v1" false.

Definition demo_job : pyval := VStr "job-1".

(** ** Further vocabulary and transports *)

(** Seconds spent in [time.sleep]. *)
Definition waited (t : trace) : Z :=
  fold_right (fun e acc => match e with ESleep s => s + acc | _ => acc end) 0 t.

(** [m] makes at most [calls] transport calls and sleeps at most [seconds]
    seconds, however it ends. *)
Definition within {A} (calls : nat) (seconds : Z) (m : M A) : Prop :=
  forall t,
    (http_count (snd (m t)) <= http_count t + calls)%nat /\
    waited (snd (m t)) <= waited t + seconds.

(** A failure record: tagged 'failed', with a message under 'error'. *)
Definition failure_record (d : dict) : Prop :=
  dict_lookup d "status" = Some failed /\
  exists message, dict_lookup d "error" = Some (VStr message).

(** A success record: tagged 'success', with the structure file as a string
    and the job id and confidence entries present, and no 'error'. *)
Definition success_record (d : dict) : Prop :=
  dict_lookup d "status" = Some success /\
  (exists pdb, dict_lookup d "pdb_data" = Some (VStr pdb)) /\
  dict_lookup d "job_id" <> None /\
  dict_lookup d "confidence_scores" <> None /\
  dict_lookup d "mean_plddt" <> None /\
  dict_lookup d "pae_data" <> None /\
  dict_lookup d "error" = None.

Definition result_record (d : dict) : Prop :=
  failure_record d \/ success_record d.

Definition result_record_or_none (o : option dict) : Prop :=
  match o with
  | Some d => result_record d
  | None => True
  end.

(** What the poller may hand back for a job: a result record with that
    job's id. *)
Definition job_record (job_id : pyval) (d : dict) : Prop :=
  result_record d /\ dict_lookup d "job_id" = Some job_id.

Definition job_record_or_none (job_id : pyval) (o : option dict) : Prop :=
  match o with
  | Some d => job_record job_id d
  | None => True
  end.

(** The job id the code reads from an accepted submission (lines 137-138
    and 297-298): [response.json().get('jobId')]. *)
Definition job_id_of (r : response) : outcome pyval :=
  match json r with
  | Ok job_data => py_get job_data "jobId" VNone
  | Raise e => Raise e
  end.

Definition confidence_payload : dict :=
  [("plddt", VList [VFloat 91.5; VFloat 88.25]); ("meanPlddt", VFloat 89.875)].

(** Pending twice, then completed, then the two artifacts. *)
Definition rt_completes : Runtime :=
  scripted (fun n _ =>
              match n with
              | 0%nat | 1%nat => Ok (status_response "pending")
              | 2%nat => Ok completed_response
              | 3%nat => Ok (mkResponse 200 "ATOM      1  N   MET A   1" (Raise JSONDecodeError))
              | _ => Ok (mkResponse 200 "<confidence body>" (Ok (VDict confidence_payload)))
              end).

(** A 200 answer whose body is a JSON list. *)
Definition rt_status_is_a_list : Runtime :=
  scripted (fun _ _ => Ok (mkResponse 200 "[]" (Ok (VList [])))).

(** ** The self-test *)

(** Truth value of a value ([not v] is its negation). *)
Definition py_truth (v : pyval) : bool :=
  match v with
  | VNone => false
  | VBool b => b
  | VInt z => negb (z =? 0)
  | VFloat f => negb (PrimFloat.eqb f 0)
  | VStr s => negb (String.eqb s EmptyString)
  | VList l => match l with [] => false | _ => true end
  | VDict d => match d with [] => false | _ => true end
  end.

(** The line-feed character, as a one-character string. *)
Definition newline : string := String (Ascii.ascii_of_nat 10) EmptyString.

Section SelfTest.
Context {rt : Runtime}.

(** The block under [if __name__ == '__main__'] (lines 330-345).  Its
    [print] calls write to standard output; the value returned here is the
    list of the strings they are given, in order.  [environ] and
    [colabfold_importable] are as for [__init__]. *)
Definition main (environ : option string) (colabfold_importable : bool)
  : M (list string) :=
  bridge <- __init__ None environ colabfold_importable ;;
  status <- get_status bridge ;;
  let out := ["AlphaFold Bridge Status:"] in
  api_available <- lift (dict_index status "api_available") ;;
  let out := out ++ ["  API Available: " +:+ py_str api_available] in
  colabfold <- lift (dict_index status "colabfold_available") ;;
  let out := out ++ ["  ColabFold Available: " +:+ py_str colabfold] in
  python_version <- lift (dict_index status "python_version") ;;
  let out := out ++ ["  Python: " +:+ py_str python_version] in
  api_available <- lift (dict_index status "api_available") ;;
  let out :=
    if negb (py_truth api_available) then
      out ++ [newline +:+ "⚠ To use AlphaFold API, set environment variable:";
              "  export ALPHAFOLD_API_KEY=your_api_key"]
    else out in
  colabfold <- lift (dict_index status "colabfold_available") ;;
  let out :=
    if negb (py_truth colabfold) then
      out ++ [newline +:+ "⚠ To use local prediction, install ColabFold:";
              "  pip install colabfold"]
    else out in
  ret out.

End SelfTest.

(** An answer to a status query that does not end the polling: a transport
    failure, a response the poller cannot read a status from (another code
    than 200, a body that is not a JSON object), or a status that is not
    terminal. *)
Definition keeps_polling (answer : outcome response) : Prop :=
  match answer with
  | Raise _ => True
  | Ok r =>
      match reported_status r with
      | None => True
      | Some status => is_terminal status = false
      end
  end.

(** Pending, busy, unreachable, garbled and queued in turn. *)
Definition rt_never_terminal : Runtime :=
  scripted (fun n _ => match (n mod 5)%nat with
                       | 0%nat => Ok (status_response "pending")
                       | 1%nat => Ok busy_response
                       | 2%nat => Raise ConnectionError
                       | 3%nat => Ok (mkResponse 200 "<html>" (Raise JSONDecodeError))
                       | _ => Ok (status_response "queued")
                       end).

Definition ReadTimeout : exn := mkExn "ReadTimeout" "read timed out".

(** Every call fails, with one exception and another in turn. *)
Definition rt_two_failures : Runtime :=
  scripted (fun n _ => if Nat.even n then Raise ConnectionError
                       else Raise ReadTimeout).

(** A 200 answer whose body is not JSON. *)
Definition rt_status_garbled : Runtime :=
  scripted (fun _ _ => Ok (mkResponse 200 "<html>" (Raise JSONDecodeError))).

(** The submission is accepted, the job then stays pending. *)
Definition rt_accepted_then_pending : Runtime :=
  scripted (fun n _ => match n with
                       | 0%nat => Ok accepted_response
                       | _ => Ok (status_response "pending")
                       end).

(** The submission is accepted with a body that is not JSON. *)
Definition rt_accepted_garbled : Runtime :=
  scripted (fun _ _ => Ok (mkResponse 202 "<html>" (Raise JSONDecodeError))).

(** * Properties *)

(** ** The trace and the monad *)

Lemma http_count_app (t u : trace) :
  http_count (t ++ u) = (http_count t + http_count u)%nat.
Proof. unfold http_count. rewrite filter_app, length_app. reflexivity. Qed.

Lemma sleep_count_app (t u : trace) :
  sleep_count (t ++ u) = (sleep_count t + sleep_count u)%nat.
Proof. unfold sleep_count. rewrite filter_app, length_app. reflexivity. Qed.

Lemma bind_Ok {A B} (m : M A) (k : A -> M B) t a t' :
  m t = (Ok a, t') -> bind m k t = k a t'.
Proof. intros E. unfold bind. rewrite E. reflexivity. Qed.

Lemma bind_Raise {A B} (m : M A) (k : A -> M B) t e t' :
  m t = (Raise e, t') -> bind m k t = (Raise e, t').
Proof. intros E. unfold bind. rewrite E. reflexivity. Qed.

Lemma bind_lift_Ok {A B} (a : A) (k : A -> M B) t :
  bind (lift (Ok a)) k t = k a t.
Proof. reflexivity. Qed.

Lemma bind_lift_Raise {A B} (e : exn) (k : A -> M B) t :
  bind (lift (Raise e)) k t = (Raise e, t).
Proof. reflexivity. Qed.

Lemma try_except_Ok {A} (m : M A) h t a t' :
  m t = (Ok a, t') -> try_except m h t = (Ok a, t').
Proof. intros E. unfold try_except. rewrite E. reflexivity. Qed.

Lemma try_except_Raise {A} (m : M A) h t e t' :
  m t = (Raise e, t') -> try_except m h t = h e t'.
Proof. intros E. unfold try_except. rewrite E. reflexivity. Qed.

(** A loop can be cut after any prefix of its items that falls through. *)
Lemma for_each_app {A R} (body : A -> M (option R)) (xs ys : list A) t t' :
  for_each xs body t = (Ok None, t') ->
  for_each (xs ++ ys) body t = for_each ys body t'.
Proof.
  revert t. induction xs as [|x xs IH]; intros t E; simpl in *.
  - unfold ret in E. now inversion E.
  - unfold bind in *. destruct (body x t) as [[[r|]|e] t1].
    + unfold ret in E. discriminate.
    + now apply IH.
    + discriminate.
Qed.

(** When every pass falls through and logs the same events, so does the
    whole loop, once per item. *)
Lemma for_each_fall_through {A R} (body : A -> M (option R)) (evs : list event) :
  (forall x t, body x t = (Ok None, t ++ evs)) ->
  forall xs t,
    for_each xs body t = (Ok None, t ++ List.concat (repeat evs (List.length xs))).
Proof.
  intros Hbody. induction xs as [|x xs IH]; intros t; simpl.
  - unfold ret. now rewrite app_nil_r.
  - unfold bind. rewrite Hbody, IH, <- app_assoc. reflexivity.
Qed.

Lemma seq_snoc_cut (k n : nat) :
  (k < n)%nat -> seq 0 n = seq 0 k ++ k :: seq (S k) (n - S k).
Proof.
  intros Hk. replace n with (k + S (n - S k))%nat at 1 by lia.
  rewrite seq_app. reflexivity.
Qed.

Lemma reported_status_inv (r : response) (v : pyval) :
  reported_status r = Some v ->
  status_code r = 200 /\
  exists d, json r = Ok (VDict d) /\ dict_get d "status" VNone = v.
Proof.
  unfold reported_status. destruct (Z.eqb_spec (status_code r) 200) as [E|]; [|discriminate].
  destruct (json r) as [[| | | | | |d]|]; try discriminate.
  intros [= <-]. eauto.
Qed.

(** ** One poll attempt *)

Ltac run_monad :=
  unfold try_except, bind, requests_get, requests_post, http, lift, ret, print, sleep.
Ltac reduce := cbv beta iota zeta.
Ltac tidy_trace := rewrite <- ?app_assoc; cbn [app].

Section PollAttempt.
Context {rt : Runtime}.
Variables (self : AlphaFoldBridge) (job_id headers : pyval).

Local Abbreviation url := (status_url self job_id).
Local Abbreviation query := (status_query self job_id headers).

Lemma is_terminal_false (v : pyval) :
  is_terminal v = false ->
  py_eq_str v "completed" = false /\ py_eq_str v "failed" = false.
Proof. unfold is_terminal. apply orb_false_iff. Qed.

(** A transport failure of the status query is logged and waited out. *)
Lemma poll_attempt_query_raises t e :
  net t query = Raise e ->
  poll_attempt url job_id headers t =
  (Ok None, t ++ [EHttp query; EPrint (polling_error_line e); ESleep poll_interval]).
Proof.
  intros Hnet. unfold poll_attempt. run_monad.
  fold query. rewrite Hnet. reduce. tidy_trace. reflexivity.
Qed.

(** A response with another code than 200 is passed over in silence. *)
Lemma poll_attempt_not_200 t r :
  net t query = Ok r -> status_code r <> 200 ->
  poll_attempt url job_id headers t = (Ok None, t ++ [EHttp query]).
Proof.
  intros Hnet Hcode. apply Z.eqb_neq in Hcode.
  unfold poll_attempt. run_monad.
  fold query. rewrite Hnet. reduce. rewrite Hcode. reflexivity.
Qed.

(** A status that is neither ['completed'] nor ['failed'] is logged and
    waited out. *)
Lemma poll_attempt_waiting t r v :
  net t query = Ok r -> reported_status r = Some v -> is_terminal v = false ->
  poll_attempt url job_id headers t =
  (Ok None, t ++ [EHttp query; EPrint (waiting_line v); ESleep poll_interval]).
Proof.
  intros Hnet Hst Hv.
  apply reported_status_inv in Hst as (Hcode & d & Hjson & Hget).
  apply is_terminal_false in Hv as [Hc Hf].
  unfold poll_attempt. run_monad.
  fold query. rewrite Hnet. reduce. rewrite Hcode, Z.eqb_refl, Hjson. reduce.
  unfold py_get. reduce. rewrite Hget, Hc, Hf. tidy_trace. reflexivity.
Qed.

(** On ['failed'] the attempt returns the failure record at once. *)
Lemma poll_attempt_failed t r :
  net t query = Ok r -> reported_status r = Some (VStr "failed") ->
  poll_attempt url job_id headers t =
  (Ok (Some (job_failed_result job_id)), t ++ [EHttp query]).
Proof.
  intros Hnet Hst.
  apply reported_status_inv in Hst as (Hcode & d & Hjson & Hget).
  unfold poll_attempt. run_monad.
  fold query. rewrite Hnet. reduce. rewrite Hcode, Z.eqb_refl, Hjson. reduce.
  unfold py_get. reduce. rewrite Hget. reflexivity.
Qed.

(** On ['completed'] the two artifacts are fetched inside the same [try]:
    a transport failure of the structure-file fetch is handled like any
    other polling error. *)
Lemma poll_attempt_structure_fetch_raises t r d e :
  net t query = Ok r -> status_code r = 200 -> json r = Ok (VDict d) ->
  dict_get d "status" VNone = VStr "completed" ->
  let pdb := artifact_query (dict_get d "pdbUrl" VNone) in
  net (t ++ [EHttp query]) pdb = Raise e ->
  poll_attempt url job_id headers t =
  (Ok None, t ++ [EHttp query; EHttp pdb;
                  EPrint (polling_error_line e); ESleep poll_interval]).
Proof.
  intros Hnet Hcode Hjson Hget pdb Hpdb.
  unfold poll_attempt. run_monad.
  fold query. rewrite Hnet. reduce. rewrite Hcode, Z.eqb_refl, Hjson. reduce.
  unfold py_get. reduce. rewrite Hget.
  change (py_eq_str (VStr "completed") "completed") with true. reduce.
  fold (artifact_query (dict_get d "pdbUrl" VNone)). fold pdb.
  rewrite Hpdb. tidy_trace. reflexivity.
Qed.

(** The same for the confidence-data fetch, whether the transport fails or
    the body does not decode. *)
Lemma poll_attempt_confidence_fetch_raises t r d r1 e :
  net t query = Ok r -> status_code r = 200 -> json r = Ok (VDict d) ->
  dict_get d "status" VNone = VStr "completed" ->
  let pdb := artifact_query (dict_get d "pdbUrl" VNone) in
  let conf := artifact_query (dict_get d "confidenceUrl" VNone) in
  net (t ++ [EHttp query]) pdb = Ok r1 ->
  (net (t ++ [EHttp query; EHttp pdb]) conf = Raise e \/
   exists r2, net (t ++ [EHttp query; EHttp pdb]) conf = Ok r2 /\ json r2 = Raise e) ->
  poll_attempt url job_id headers t =
  (Ok None, t ++ [EHttp query; EHttp pdb; EHttp conf;
                  EPrint (polling_error_line e); ESleep poll_interval]).
Proof.
  intros Hnet Hcode Hjson Hget pdb conf Hpdb Hconf.
  unfold poll_attempt. run_monad.
  fold query. rewrite Hnet. reduce. rewrite Hcode, Z.eqb_refl, Hjson. reduce.
  unfold py_get. reduce. rewrite Hget.
  change (py_eq_str (VStr "completed") "completed") with true. reduce.
  fold (artifact_query (dict_get d "pdbUrl" VNone)). fold pdb.
  fold (artifact_query (dict_get d "confidenceUrl" VNone)). fold conf.
  rewrite Hpdb. reduce. tidy_trace.
  destruct Hconf as [Hconf | (r2 & Hconf & Hdec)]; rewrite Hconf; reduce.
  - tidy_trace. reflexivity.
  - rewrite Hdec. tidy_trace. reflexivity.
Qed.

(** *** From one attempt to the loop *)

Lemma poll_loop_next k t tk o tk' :
  poll_loop url job_id headers k t = (Ok None, tk) ->
  poll_attempt url job_id headers tk = (Ok o, tk') ->
  poll_loop url job_id headers (S k) t = (Ok o, tk').
Proof.
  intros Hk Ha. unfold poll_loop in *.
  rewrite seq_S. rewrite (for_each_app _ _ _ _ _ Hk).
  cbn [for_each]. unfold bind. rewrite Ha. now destruct o.
Qed.

(** Once an attempt returns a record, so does [_poll_job_status]. *)
Lemma poll_job_status_returns k t tk result tk' :
  (k < max_polls)%nat ->
  poll_loop url job_id headers k t = (Ok None, tk) ->
  poll_attempt url job_id headers tk = (Ok (Some result), tk') ->
  _poll_job_status self job_id headers t = (Ok result, tk').
Proof.
  intros Hlt Hk Ha. unfold _poll_job_status. reduce. fold url.
  unfold poll_loop in *. rewrite (seq_snoc_cut k max_polls Hlt).
  unfold bind at 1. rewrite (for_each_app _ _ _ _ _ Hk).
  cbn [for_each]. unfold bind. rewrite Ha. reflexivity.
Qed.

(** When every attempt falls through with the same events, the budget of
    [max_polls] attempts is used up and the timeout record returned. *)
Lemma poll_job_status_times_out evs t :
  (forall t', poll_attempt url job_id headers t' = (Ok None, t' ++ evs)) ->
  _poll_job_status self job_id headers t =
  (Ok (timeout_result job_id), t ++ List.concat (repeat evs max_polls)).
Proof.
  intros Hbody. unfold _poll_job_status, poll_loop. reduce. fold url.
  unfold bind.
  rewrite (for_each_fall_through _ evs (fun _ => Hbody)), length_seq.
  reflexivity.
Qed.

End PollAttempt.

Lemma concat_repeat_singleton {A} (x : A) (n : nat) :
  List.concat (repeat [x] n) = repeat x n.
Proof. induction n; simpl; congruence. Qed.

Lemma http_count_rounds (evs : list event) (n : nat) :
  http_count (List.concat (repeat evs n)) = (n * http_count evs)%nat.
Proof.
  induction n; simpl; [reflexivity|]. now rewrite http_count_app, IHn.
Qed.

Lemma sleep_count_rounds (evs : list event) (n : nat) :
  sleep_count (List.concat (repeat evs n)) = (n * sleep_count evs)%nat.
Proof.
  induction n; simpl; [reflexivity|]. now rewrite sleep_count_app, IHn.
Qed.

(** ** The poller *)

Section Poller.
Context {rt : Runtime}.
Variables (self : AlphaFoldBridge) (job_id headers : pyval).

Local Abbreviation url := (status_url self job_id).
Local Abbreviation query := (status_query self job_id headers).

(** C3: when every status query is answered Pending, the poller makes
    exactly 60 status queries (each followed by a log line and a wait of the
    poll interval) and returns the failure record with the timeout message
    and the job id. *)
Theorem always_pending_times_out_after_60_queries (t : trace) :
  (forall t', exists r,
      net t' query = Ok r /\ reported_status r = Some (VStr "pending")) ->
  let round := [EHttp query; EPrint (waiting_line (VStr "pending"));
                ESleep poll_interval] in
  let t_end := t ++ List.concat (repeat round 60) in
  _poll_job_status self job_id headers t = (Ok (timeout_result job_id), t_end) /\
  http_count t_end = (http_count t + 60)%nat /\
  timeout_result job_id =
    [("error", VStr "Job timeout after 10 minutes");
     ("status", failed);
     ("job_id", job_id)].
Proof.
  intros Hpending round t_end. split; [|split].
  - apply poll_job_status_times_out. intros t'.
    destruct (Hpending t') as (r & Hnet & Hst).
    now apply (poll_attempt_waiting _ _ _ t' r).
  - unfold t_end. rewrite http_count_app, http_count_rounds. reflexivity.
  - reflexivity.
Qed.

(** C6: at whatever attempt the status response is Failed, the poller makes
    no further query (the trace ends with that status query) and returns the
    failure record with the message 'Prediction job failed' and the job id. *)
Theorem failed_status_stops_polling (k : nat) (t tk : trace) (r : response) :
  (k < max_polls)%nat ->
  poll_loop url job_id headers k t = (Ok None, tk) ->
  net tk query = Ok r ->
  reported_status r = Some (VStr "failed") ->
  _poll_job_status self job_id headers t =
    (Ok (job_failed_result job_id), tk ++ [EHttp query]) /\
  job_failed_result job_id =
    [("error", VStr "Prediction job failed");
     ("status", failed);
     ("job_id", job_id)].
Proof.
  intros Hk Hloop Hnet Hst. split; [|reflexivity].
  apply (poll_job_status_returns _ _ _ k t tk); auto.
  now apply (poll_attempt_failed _ _ _ tk r).
Qed.

(** C8: a status that is neither 'completed' nor 'failed' (an unknown
    string, the empty string, or [None] for a missing field) does what
    'pending' does: the attempt logs the status, waits the poll interval and
    falls through to the next attempt. *)
Theorem unrecognized_status_keeps_polling
    (k : nat) (t tk : trace) (r : response) (status : pyval) :
  poll_loop url job_id headers k t = (Ok None, tk) ->
  net tk query = Ok r ->
  reported_status r = Some status ->
  is_terminal status = false ->
  poll_loop url job_id headers (S k) t =
    (Ok None, tk ++ [EHttp query; EPrint (waiting_line status);
                     ESleep poll_interval]) /\
  is_terminal (VStr "pending") = false.
Proof.
  intros Hloop Hnet Hst Hterm. split; [|reflexivity].
  apply (poll_loop_next _ _ _ k t tk); auto.
  now apply (poll_attempt_waiting _ _ _ tk r).
Qed.

(** C9: a status query answered with another code than 200 uses up its
    attempt with no log line and no wait; when all 60 are answered so, the
    trace gains 60 status queries and nothing else, and the timeout record
    is returned. *)
Theorem non_200_attempts_are_consumed_silently (t : trace) :
  (forall k tk r,
      poll_loop url job_id headers k t = (Ok None, tk) ->
      net tk query = Ok r -> status_code r <> 200 ->
      poll_loop url job_id headers (S k) t = (Ok None, tk ++ [EHttp query])) /\
  ((forall t', exists r, net t' query = Ok r /\ status_code r <> 200) ->
   let t_end := t ++ repeat (EHttp query) 60 in
   _poll_job_status self job_id headers t = (Ok (timeout_result job_id), t_end) /\
   http_count t_end = (http_count t + 60)%nat /\
   sleep_count t_end = sleep_count t).
Proof.
  split.
  - intros k tk r Hloop Hnet Hcode.
    apply (poll_loop_next _ _ _ k t tk); auto.
    now apply (poll_attempt_not_200 _ _ _ tk r).
  - intros Hbusy t_end. unfold t_end.
    rewrite <- (concat_repeat_singleton (EHttp query) 60).
    split; [|split].
    + apply poll_job_status_times_out. intros t'.
      destruct (Hbusy t') as (r & Hnet & Hcode).
      now apply (poll_attempt_not_200 _ _ _ t' r).
    + rewrite http_count_app, http_count_rounds. reflexivity.
    + rewrite sleep_count_app, sleep_count_rounds. cbn. lia.
Qed.

(** C2, as the code has it: when a status response says completed and a
    fetch of an artifact then fails, the failure is caught by the handler of
    the polling loop: it is logged, the poll interval is waited, and the
    attempt falls through to the next one. *)
Theorem artifact_fetch_failure_is_retried
    (k : nat) (t tk : trace) (r : response) (d : dict) (e : exn) :
  poll_loop url job_id headers k t = (Ok None, tk) ->
  net tk query = Ok r -> status_code r = 200 -> json r = Ok (VDict d) ->
  dict_get d "status" VNone = VStr "completed" ->
  let pdb := artifact_query (dict_get d "pdbUrl" VNone) in
  let conf := artifact_query (dict_get d "confidenceUrl" VNone) in
  (net (tk ++ [EHttp query]) pdb = Raise e ->
   poll_loop url job_id headers (S k) t =
     (Ok None, tk ++ [EHttp query; EHttp pdb;
                      EPrint (polling_error_line e); ESleep poll_interval])) /\
  (forall r1,
      net (tk ++ [EHttp query]) pdb = Ok r1 ->
      net (tk ++ [EHttp query; EHttp pdb]) conf = Raise e \/
      (exists r2, net (tk ++ [EHttp query; EHttp pdb]) conf = Ok r2 /\
                  json r2 = Raise e) ->
      poll_loop url job_id headers (S k) t =
        (Ok None, tk ++ [EHttp query; EHttp pdb; EHttp conf;
                         EPrint (polling_error_line e); ESleep poll_interval])).
Proof.
  intros Hloop Hnet Hcode Hjson Hget pdb conf. split.
  - intros Hpdb. apply (poll_loop_next _ _ _ k t tk); auto.
    now apply (poll_attempt_structure_fetch_raises _ _ _ tk r d e).
  - intros r1 Hpdb Hconf. apply (poll_loop_next _ _ _ k t tk); auto.
    now apply (poll_attempt_confidence_fetch_raises _ _ _ tk r d r1 e).
Qed.

End Poller.

(** ** The poller on concrete transports *)

Lemma always_pending_witness :
  (forall t', exists r,
      net (Runtime := rt_always_pending) t'
          (status_query (rt := rt_always_pending) demo_bridge demo_job (VDict [])) = Ok r /\
      reported_status r = Some (VStr "pending")) /\
  fst (_poll_job_status (rt := rt_always_pending) demo_bridge demo_job (VDict []) []) =
    Ok [("error", VStr "Job timeout after 10 minutes");
        ("status", VStr "failed");
        ("job_id", VStr "job-1")] /\
  http_count (snd (_poll_job_status (rt := rt_always_pending)
                     demo_bridge demo_job (VDict []) [])) = 60%nat.
Proof.
  assert (H : forall t', exists r,
             net (Runtime := rt_always_pending) t'
                 (status_query (rt := rt_always_pending) demo_bridge demo_job (VDict [])) = Ok r /\
             reported_status r = Some (VStr "pending")).
  { intros t'. exists (status_response "pending"). split; reflexivity. }
  split; [exact H|].
  destruct (always_pending_times_out_after_60_queries
              (rt := rt_always_pending) demo_bridge demo_job (VDict []) [] H)
    as (E & Hcount & _).
  rewrite E. split; [reflexivity | exact Hcount].
Defined.

Lemma failed_status_witness :
  exists tk,
    poll_loop (rt := rt_pending_then_failed)
      (status_url (rt := rt_pending_then_failed) demo_bridge demo_job)
      demo_job (VDict []) 2 [] = (Ok None, tk) /\
    http_count tk = 2%nat /\
    _poll_job_status (rt := rt_pending_then_failed) demo_bridge demo_job (VDict []) [] =
      (Ok [("error", VStr "Prediction job failed");
           ("status", VStr "failed");
           ("job_id", VStr "job-1")],
       tk ++ [EHttp (status_query (rt := rt_pending_then_failed)
                       demo_bridge demo_job (VDict []))]).
Proof.
  eexists. split; [vm_compute; reflexivity|]. split; [reflexivity|].
  refine (proj1 (failed_status_stops_polling
                   (rt := rt_pending_then_failed) demo_bridge demo_job (VDict [])
                   2 [] _ (status_response "failed") _ _ _ _)).
  - unfold max_polls. lia.
  - vm_compute. reflexivity.
  - reflexivity.
  - reflexivity.
Defined.

Lemma unrecognized_status_witness :
  exists tk,
    poll_loop (rt := rt_pending_then_queued)
      (status_url (rt := rt_pending_then_queued) demo_bridge demo_job)
      demo_job (VDict []) 2 [] = (Ok None, tk) /\
    is_terminal (VStr "queued") = false /\
    poll_loop (rt := rt_pending_then_queued)
      (status_url (rt := rt_pending_then_queued) demo_bridge demo_job)
      demo_job (VDict []) 3 [] =
      (Ok None,
       tk ++ [EHttp (status_query (rt := rt_pending_then_queued)
                       demo_bridge demo_job (VDict []));
              EPrint "Job status: queued. Waiting...";
              ESleep 10]).
Proof.
  eexists. split; [vm_compute; reflexivity|]. split; [reflexivity|].
  refine (proj1 (unrecognized_status_keeps_polling
                   (rt := rt_pending_then_queued) demo_bridge demo_job (VDict [])
                   2 [] _ (status_response "queued") (VStr "queued") _ _ _ _)).
  - vm_compute. reflexivity.
  - reflexivity.
  - reflexivity.
  - reflexivity.
Defined.

Lemma non_200_witness :
  (forall t', exists r,
      net (Runtime := rt_always_busy) t'
          (status_query (rt := rt_always_busy) demo_bridge demo_job (VDict [])) = Ok r /\
      status_code r <> 200) /\
  poll_loop (rt := rt_always_busy)
    (status_url (rt := rt_always_busy) demo_bridge demo_job) demo_job (VDict []) 1 [] =
    (Ok None, [EHttp (status_query (rt := rt_always_busy) demo_bridge demo_job (VDict []))]) /\
  _poll_job_status (rt := rt_always_busy) demo_bridge demo_job (VDict []) [] =
    (Ok (timeout_result demo_job),
     repeat (EHttp (status_query (rt := rt_always_busy) demo_bridge demo_job (VDict []))) 60).
Proof.
  assert (H : forall t', exists r,
             net (Runtime := rt_always_busy) t'
                 (status_query (rt := rt_always_busy) demo_bridge demo_job (VDict [])) = Ok r /\
             status_code r <> 200).
  { intros t'. exists busy_response. split; [reflexivity | discriminate]. }
  destruct (non_200_attempts_are_consumed_silently
              (rt := rt_always_busy) demo_bridge demo_job (VDict []) [])
    as [Hstep Hall].
  split; [exact H|]. split.
  - apply (Hstep 0%nat [] busy_response); [reflexivity | reflexivity | discriminate].
  - exact (proj1 (Hall H)).
Defined.

Lemma artifact_fetch_failure_witness :
  poll_loop (rt := rt_structure_fetch_fails)
    (status_url (rt := rt_structure_fetch_fails) demo_bridge demo_job)
    demo_job (VDict []) 1 [] =
    (Ok None,
     [EHttp (status_query (rt := rt_structure_fetch_fails) demo_bridge demo_job (VDict []));
      EHttp (artifact_query (VStr "https://files.example/model.pdb"));
      EPrint "Polling error: connection refused. Retrying...";
      ESleep 10]) /\
  poll_loop (rt := rt_confidence_fetch_fails)
    (status_url (rt := rt_confidence_fetch_fails) demo_bridge demo_job)
    demo_job (VDict []) 1 [] =
    (Ok None,
     [EHttp (status_query (rt := rt_confidence_fetch_fails) demo_bridge demo_job (VDict []));
      EHttp (artifact_query (VStr "https://files.example/model.pdb"));
      EHttp (artifact_query (VStr "https://files.example/confidence.json"));
      EPrint "Polling error: connection refused. Retrying...";
      ESleep 10]).
Proof.
  split.
  - refine (proj1 (artifact_fetch_failure_is_retried
                     (rt := rt_structure_fetch_fails) demo_bridge demo_job (VDict [])
                     0 [] [] completed_response completed_payload ConnectionError _ _ _ _ _) _);
      reflexivity.
  - refine (proj2 (artifact_fetch_failure_is_retried
                     (rt := rt_confidence_fetch_fails) demo_bridge demo_job (VDict [])
                     0 [] [] completed_response completed_payload ConnectionError _ _ _ _ _)
                  (mkResponse 200 "ATOM ..." (Raise JSONDecodeError)) _ _);
      try reflexivity.
    left. reflexivity.
Defined.

(** C2 as the specification words it fails: here every status response says
    completed and every fetch of the structure file fails, yet nothing
    reaches the caller as an exception; the loop goes on through all 60
    attempts (120 transport calls, 60 waits) and ends in the timeout record. *)
Lemma artifact_fetch_failure_does_not_propagate :
  let query := status_query (rt := rt_structure_fetch_fails) demo_bridge demo_job (VDict []) in
  let run := _poll_job_status (rt := rt_structure_fetch_fails)
               demo_bridge demo_job (VDict []) [] in
  net (Runtime := rt_structure_fetch_fails) [] query = Ok completed_response /\
  reported_status completed_response = Some (VStr "completed") /\
  net (Runtime := rt_structure_fetch_fails) [EHttp query]
      (artifact_query (VStr "https://files.example/model.pdb")) = Raise ConnectionError /\
  fst run = Ok (timeout_result demo_job) /\
  (forall e, fst run <> Raise e) /\
  http_count (snd run) = 120%nat /\
  sleep_count (snd run) = 60%nat.
Proof.
  vm_compute. repeat split; try reflexivity. intros e. discriminate.
Qed.

(** ** Computations that cannot raise *)

Lemma returns_ensures {A} (P : A -> Prop) (m : M A) : returns P m -> ensures P m.
Proof. intros H t. destruct (H t) as (a & t' & E & HP). now rewrite E. Qed.

Lemma returns_ret {A} (P : A -> Prop) (a : A) : P a -> returns P (ret a).
Proof. intros HP t. exists a, t. now split. Qed.

Lemma returns_bind {A B} (Q : A -> Prop) (P : B -> Prop) (m : M A) (k : A -> M B) :
  returns Q m -> (forall a, Q a -> returns P (k a)) -> returns P (bind m k).
Proof.
  intros Hm Hk t. destruct (Hm t) as (a & t1 & E & HQ).
  destruct (Hk a HQ t1) as (b & t2 & E2 & HP).
  exists b, t2. split; [|exact HP]. now rewrite (bind_Ok _ _ _ _ _ E).
Qed.

Lemma returns_print {P : unit -> Prop} line : P tt -> returns P (print line).
Proof. intros HP t. exists tt, (t ++ [EPrint line]). now split. Qed.

Lemma returns_sleep {P : unit -> Prop} n : P tt -> returns P (sleep n).
Proof. intros HP t. exists tt, (t ++ [ESleep n]). now split. Qed.

Lemma ensures_ret {A} (P : A -> Prop) (a : A) : P a -> ensures P (ret a).
Proof. intros HP t. exact HP. Qed.

Lemma ensures_bind {A B} (P : B -> Prop) (m : M A) (k : A -> M B) :
  (forall a, ensures P (k a)) -> ensures P (bind m k).
Proof.
  intros Hk t. unfold bind. destruct (m t) as [[a|e] t1]; [apply Hk | exact I].
Qed.

(** A handler that cannot raise makes the whole [try] unable to raise. *)
Lemma returns_try_except {A} (P : A -> Prop) (m : M A) (h : exn -> M A) :
  ensures P m -> (forall e, returns P (h e)) -> returns P (try_except m h).
Proof.
  intros Hm Hh t. unfold try_except. specialize (Hm t).
  destruct (m t) as [[a|e] t1]; [now exists a, t1 | apply Hh].
Qed.

Lemma returns_for_each {A} (P : option dict -> Prop) (body : A -> M (option dict)) :
  P None ->
  (forall x, returns P (body x)) ->
  forall xs, returns P (for_each xs body).
Proof.
  intros HNone Hbody. induction xs as [|x xs IH]; cbn [for_each].
  - now apply returns_ret.
  - apply (returns_bind P P); [apply Hbody|].
    intros [r|] HP; [now apply returns_ret | exact IH].
Qed.

Ltac ensures_step :=
  lazymatch goal with
  | |- ensures _ (ret _) => apply ensures_ret
  | |- ensures _ (bind _ _) => apply ensures_bind; intros ?
  | |- ensures _ (if ?b then _ else _) => destruct b
  end.

Ltac tagged_now :=
  first [ exact I | left; reflexivity | right; reflexivity ].

Section NeverRaises.
Context {rt : Runtime}.
Variable self : AlphaFoldBridge.

Lemma poll_attempt_returns (u : string) (job_id headers : pyval) :
  returns tagged_or_none (poll_attempt u job_id headers).
Proof.
  unfold poll_attempt. apply returns_try_except.
  - repeat ensures_step; cbn [tagged_or_none]; tagged_now.
  - intros e.
    apply (returns_bind (fun _ => True)); [now apply returns_print|]. intros _ _.
    apply (returns_bind (fun _ => True)); [now apply returns_sleep|]. intros _ _.
    now apply returns_ret.
Qed.

Lemma poll_job_status_returns_tagged (job_id headers : pyval) :
  returns tagged (_poll_job_status self job_id headers).
Proof.
  unfold _poll_job_status. reduce.
  apply (returns_bind tagged_or_none).
  - unfold poll_loop. apply returns_for_each; [exact I|].
    intros _. apply poll_attempt_returns.
  - intros [d|] Hd; apply returns_ret; [exact Hd | right; reflexivity].
Qed.

Lemma predict_via_api_returns_tagged (sequence job_name num_models use_templates : pyval) :
  returns tagged (_predict_via_api self sequence job_name num_models use_templates).
Proof.
  unfold _predict_via_api. destruct (negb (truthy (api_key self))).
  - apply returns_ret. right; reflexivity.
  - apply returns_try_except.
    + reduce. do 2 (apply ensures_bind; intros ?).
      apply ensures_bind; intros response.
      destruct (status_code response =? 202).
      * do 3 (apply ensures_bind; intros ?).
        apply returns_ensures, poll_job_status_returns_tagged.
      * apply ensures_ret. right; reflexivity.
    + intros e. apply returns_ret. right; reflexivity.
Qed.

Lemma predict_via_colabfold_returns_tagged (sequence job_name num_models : pyval) :
  returns tagged (_predict_via_colabfold self sequence job_name num_models).
Proof.
  unfold _predict_via_colabfold. destruct (negb (colabfold_available self)).
  - apply returns_ret. right; reflexivity.
  - apply returns_try_except.
    + apply ensures_ret. right; reflexivity.
    + intros e. apply returns_ret. right; reflexivity.
Qed.

(** C1, as the code has it: [predict_structure] returns a record tagged
    'success' or 'failed', and raises nothing, for every configuration with
    a 'sequence' entry whose mode is 'api', 'local' or any value that
    [str()] can format; [predict_multimer] does so for every configuration
    whose 'sequences' entry has a length; [get_status] always returns its
    capability record of five entries, none of them a 'status'. *)
Theorem public_operations_return_records (config : dict) (t : trace) :
  (forall sequence,
      dict_lookup config "sequence" = Some sequence ->
      let mode := dict_get config "mode" (VStr "api") in
      py_eq_str mode "api" = true \/ py_eq_str mode "local" = true \/
      str_raises mode = None ->
      exists d t', predict_structure self config t = (Ok d, t') /\ tagged d) /\
  (forall sequences n,
      dict_lookup config "sequences" = Some sequences ->
      py_len sequences = Ok n ->
      exists d t', predict_multimer self config t = (Ok d, t') /\ tagged d) /\
  (exists d, get_status self t = (Ok d, t) /\
             d = [("api_available", VBool (truthy (api_key self)));
                  ("colabfold_available", VBool (colabfold_available self));
                  ("python_version", VStr sys_version);
                  ("module", VStr "alphafold_bridge");
                  ("version", VStr "1.0.0")] /\
             dict_lookup d "status" = None).
Proof.
  split; [|split].
  - intros sequence Hseq mode Hmode. unfold predict_structure, dict_index.
    rewrite Hseq, bind_lift_Ok. fold mode.
    destruct (py_eq_str mode "api") eqn:Hapi.
    + apply predict_via_api_returns_tagged.
    + destruct (py_eq_str mode "local") eqn:Hlocal.
      * apply predict_via_colabfold_returns_tagged.
      * destruct Hmode as [H|[H|H]]; try discriminate H.
        unfold format_value. rewrite H, bind_lift_Ok.
        apply returns_ret. right; reflexivity.
  - intros sequences n Hseq Hlen. unfold predict_multimer, dict_index.
    rewrite Hseq, bind_lift_Ok, Hlen, bind_lift_Ok.
    destruct (negb (truthy (api_key self))).
    + apply returns_ret. right; reflexivity.
    + apply returns_try_except.
      * reduce. do 3 (apply ensures_bind; intros ?).
        match goal with |- ensures _ (if ?b then _ else _) => destruct b end.
        -- do 2 (apply ensures_bind; intros ?).
           apply returns_ensures, poll_job_status_returns_tagged.
        -- apply ensures_ret. right; reflexivity.
      * intros e. apply returns_ret. right; reflexivity.
  - eexists. split; [reflexivity|]. split; reflexivity.
Qed.

End NeverRaises.

(** ** Computations only add to the trace *)

Lemma extends_ret {A} (a : A) : extends (ret a).
Proof. intros t. exists []. cbn. now rewrite app_nil_r. Qed.

Lemma extends_lift {A} (o : outcome A) : extends (lift o).
Proof. intros t. exists []. cbn. now rewrite app_nil_r. Qed.

Lemma extends_print line : extends (print line).
Proof. intros t. now exists [EPrint line]. Qed.

Lemma extends_sleep n : extends (sleep n).
Proof. intros t. now exists [ESleep n]. Qed.

Lemma extends_http {rt : Runtime} q : extends (http q).
Proof. intros t. now exists [EHttp q]. Qed.

Lemma extends_bind {A B} (m : M A) (k : A -> M B) :
  extends m -> (forall a, extends (k a)) -> extends (bind m k).
Proof.
  intros Hm Hk t. unfold bind. destruct (Hm t) as [e1 E1].
  destruct (m t) as [[a|e] t1]; cbn [snd] in *; subst t1.
  - destruct (Hk a (t ++ e1)) as [e2 E2]. exists (e1 ++ e2).
    now rewrite E2, app_assoc.
  - now exists e1.
Qed.

Lemma extends_try_except {A} (m : M A) (h : exn -> M A) :
  extends m -> (forall e, extends (h e)) -> extends (try_except m h).
Proof.
  intros Hm Hh t. unfold try_except. destruct (Hm t) as [e1 E1].
  destruct (m t) as [[a|e] t1]; cbn [snd] in *; subst t1.
  - now exists e1.
  - destruct (Hh e (t ++ e1)) as [e2 E2]. exists (e1 ++ e2).
    now rewrite E2, app_assoc.
Qed.

Lemma extends_for_each {A R} (body : A -> M (option R)) :
  (forall x, extends (body x)) -> forall xs, extends (for_each xs body).
Proof.
  intros Hbody. induction xs as [|x xs IH]; cbn [for_each].
  - apply extends_ret.
  - apply extends_bind; [apply Hbody|]. intros [r|]; [apply extends_ret | exact IH].
Qed.

Ltac extends_step :=
  lazymatch goal with
  | |- extends (ret _) => apply extends_ret
  | |- extends (lift _) => apply extends_lift
  | |- extends (print _) => apply extends_print
  | |- extends (sleep _) => apply extends_sleep
  | |- extends (requests_get _ _) => apply extends_http
  | |- extends (requests_post _ _ _) => apply extends_http
  | |- extends (bind _ _) => apply extends_bind; [|intros ?]
  | |- extends (try_except _ _) => apply extends_try_except; [|intros ?]
  | |- extends (if ?b then _ else _) => destruct b
  end.

Section Submission.
Context {rt : Runtime}.
Variable self : AlphaFoldBridge.

Lemma poll_job_status_extends (job_id headers : pyval) :
  extends (_poll_job_status self job_id headers).
Proof.
  unfold _poll_job_status. reduce. apply extends_bind.
  - unfold poll_loop. apply extends_for_each. intros _.
    unfold poll_attempt. repeat extends_step.
  - intros [d|]; apply extends_ret.
Qed.

(** Whatever follows a transport call that opens a [try], the call is the
    first event the [try] adds. *)
Lemma try_http_first {A} (q : request) (k : response -> M A) (h : exn -> M A) t :
  (forall r, extends (k r)) -> (forall e, extends (h e)) ->
  exists ext, snd (try_except (bind (http q) k) h t) = t ++ EHttp q :: ext.
Proof.
  intros Hk Hh.
  destruct (extends_try_except (bind (http q) k) h) with (t := t) as [ext E].
  - apply extends_bind; [apply extends_http | exact Hk].
  - exact Hh.
  - revert E. unfold try_except, bind, http.
    destruct (net t q) as [r|e].
    + destruct (Hk r (t ++ [EHttp q])) as [e1 E1].
      destruct (k r (t ++ [EHttp q])) as [[a|e'] t1]; cbn [snd] in *; subst t1.
      * intros _. exists e1. now rewrite <- app_assoc.
      * intros _. destruct (Hh e' ((t ++ [EHttp q]) ++ e1)) as [e2 E2].
        exists (e1 ++ e2). rewrite E2, <- !app_assoc. reflexivity.
    + intros _. destruct (Hh e (t ++ [EHttp q])) as [e2 E2].
      exists e2. now rewrite E2, <- app_assoc.
Qed.

Lemma try_except_lift_Ok {A B} (a : A) (k : A -> M B) (h : exn -> M B) t :
  try_except (bind (lift (Ok a)) k) h t = try_except (k a) h t.
Proof. reflexivity. Qed.

Lemma try_except_lift_Raise {A B} (e : exn) (k : A -> M B) (h : exn -> M B) t :
  try_except (bind (lift (Raise e)) k) h t = h e t.
Proof. reflexivity. Qed.

(** *** The chains of a multimer payload *)

Lemma nth_error_middle {A} (pre : list A) (x : A) (post : list A) :
  nth_error (pre ++ x :: post) (List.length pre) = Some x.
Proof. induction pre; cbn; auto. Qed.

Lemma build_chains_of_counts (items : list pyval) :
  forall (counts pre : list Z) (acc : list pyval),
    (List.length items <= List.length counts)%nat ->
    build_chains (VList (map VInt (pre ++ counts))) (List.length pre) items acc =
    Ok (acc ++ replicate_by_stoichiometry items counts).
Proof.
  induction items as [|seq items IH]; intros counts pre acc Hlen;
    cbn [build_chains].
  - cbn. now rewrite app_nil_r.
  - destruct counts as [|c counts]; [cbn in Hlen; lia|].
    cbn [py_getitem]. rewrite map_app. cbn [map].
    replace (List.length pre) with (List.length (map VInt pre)) at 1
      by apply length_map.
    rewrite nth_error_middle. cbn [py_range].
    replace (map VInt pre ++ VInt c :: map VInt counts)
      with (map VInt ((pre ++ [c]) ++ counts))
      by (rewrite <- app_assoc, map_app; reflexivity).
    replace (S (List.length pre)) with (List.length (pre ++ [c]))
      by (rewrite length_app; cbn; lia).
    rewrite IH by (cbn in Hlen; lia).
    unfold replicate_by_stoichiometry. cbn [combine flat_map fst snd].
    now rewrite app_assoc.
Qed.

Lemma replicate_by_ones (seqs : list pyval) :
  replicate_by_stoichiometry seqs (repeat 1 (List.length seqs)) = map chain seqs.
Proof.
  unfold replicate_by_stoichiometry.
  induction seqs as [|s seqs IH]; cbn; [reflexivity | now rewrite IH].
Qed.

(** A stoichiometry list that runs out before the sequences do makes the
    construction raise. *)
Lemma build_chains_short (st : list pyval) (items : list pyval) :
  forall (i : nat) (acc : list pyval),
    (i <= List.length st < i + List.length items)%nat ->
    exists e, build_chains (VList st) i items acc = Raise e /\
              ((forall c, In c st -> exists z, c = VInt z) ->
               e = IndexError "list index out of range").
Proof.
  induction items as [|seq items IH]; intros i acc Hi; cbn [build_chains].
  - cbn in Hi. lia.
  - cbn [py_getitem]. destruct (nth_error st i) as [c|] eqn:Hnth.
    + assert (i < List.length st)%nat by (apply nth_error_Some; congruence).
      destruct (py_range c) as [n|e] eqn:Hrange.
      * apply IH. cbn in Hi. lia.
      * exists e. split; [reflexivity|]. intros Hints.
        destruct (Hints c (nth_error_In _ _ Hnth)) as [z ->]. discriminate.
    + eexists. split; reflexivity.
Qed.

End Submission.

(** ** Submission through the facade *)

Section Facade.
Context {rt : Runtime}.
Variable self : AlphaFoldBridge.

(** C5: with no credential (neither the constructor's argument nor the
    environment variable holds a non-empty key), [predict_structure] in
    remote mode and [predict_multimer] return their missing-credential
    failure records and leave the trace as it was: no transport call. *)
Theorem missing_credential_fails_without_transport
    (explicit environ : option string) (colabfold : bool) (t0 : trace)
    (config : dict) (t : trace) :
  truthy explicit = false -> truthy environ = false ->
  fst (__init__ explicit environ colabfold t0) = Ok self ->
  (forall sequence,
      dict_lookup config "sequence" = Some sequence ->
      py_eq_str (dict_get config "mode" (VStr "api")) "api" = true ->
      predict_structure self config t =
      (Ok [("error", VStr "AlphaFold API key not set. Set ALPHAFOLD_API_KEY environment variable.");
           ("status", failed);
           ("message", VStr "API mode requires authentication")], t)) /\
  (forall sequences n,
      dict_lookup config "sequences" = Some sequences ->
      py_len sequences = Ok n ->
      predict_multimer self config t =
      (Ok [("error", VStr "Multimer prediction requires API access");
           ("status", failed)], t)).
Proof.
  intros Hexp Henv Hinit.
  assert (Hkey : truthy (api_key self) = false).
  { revert Hinit. unfold __init__, bind, ret, print.
    destruct colabfold; cbn [fst]; intros [= <-]; cbn [api_key];
      unfold py_or; now rewrite Hexp. }
  split.
  - intros sequence Hseq Hmode. unfold predict_structure, dict_index.
    rewrite Hseq, bind_lift_Ok, Hmode. unfold _predict_via_api.
    rewrite Hkey. reflexivity.
  - intros sequences n Hseq Hlen. unfold predict_multimer, dict_index.
    rewrite Hseq, bind_lift_Ok, Hlen, bind_lift_Ok, Hkey. reflexivity.
Qed.

(** What [predict_structure] does with a submission that is not accepted:
    one transport call, and a failure record with the status code and the
    response body. *)
Lemma predict_structure_rejected (config : dict) (sequence : pyval) (t : trace) (r : response) :
  truthy (api_key self) = true ->
  dict_lookup config "sequence" = Some sequence ->
  py_eq_str (dict_get config "mode" (VStr "api")) "api" = true ->
  str_raises (dict_get config "job_name" (VStr "holoscript_prediction")) = None ->
  let line := submitting_line (dict_get config "job_name" (VStr "holoscript_prediction")) in
  let submission :=
    submit_query self (structure_payload sequence
                         (dict_get config "num_models" (VInt 5))
                         (dict_get config "use_templates" (VBool false))) in
  net (t ++ [EPrint line]) submission = Ok r ->
  status_code r <> 202 ->
  predict_structure self config t =
  (Ok [("error", VStr ("API request failed: " +:+ str_of_Z (status_code r)));
       ("status", failed);
       ("message", VStr (text r))],
   t ++ [EPrint line; EHttp submission]).
Proof.
  intros Hkey Hseq Hmode Hfmt line submission Hnet Hcode.
  apply Z.eqb_neq in Hcode.
  unfold predict_structure, dict_index.
  rewrite Hseq, bind_lift_Ok, Hmode. unfold _predict_via_api.
  rewrite Hkey. cbn [negb]. reduce. unfold format_value. rewrite Hfmt.
  run_monad.
  fold (structure_payload sequence (dict_get config "num_models" (VInt 5))
          (dict_get config "use_templates" (VBool false))).
  fold (submit_query self (structure_payload sequence
          (dict_get config "num_models" (VInt 5))
          (dict_get config "use_templates" (VBool false)))).
  fold submission. fold (submitting_line (dict_get config "job_name" (VStr "holoscript_prediction"))).
  fold line. rewrite Hnet. reduce. rewrite Hcode. tidy_trace. reflexivity.
Qed.

(** What [predict_multimer] does with it: one transport call, and a failure
    record with the status code only. *)
Lemma predict_multimer_rejected (config : dict) (sequences : pyval)
    (items chains : list pyval) (n : nat) (t : trace) (r : response) :
  truthy (api_key self) = true ->
  dict_lookup config "sequences" = Some sequences ->
  py_len sequences = Ok n ->
  py_iter sequences = Ok items ->
  build_chains (dict_get config "stoichiometry" (VList (repeat (VInt 1) n)))
               0 items [] = Ok chains ->
  let submission := submit_query self (multimer_payload chains) in
  net t submission = Ok r ->
  status_code r <> 202 ->
  predict_multimer self config t =
  (Ok [("error", VStr ("Multimer API request failed: " +:+ str_of_Z (status_code r)));
       ("status", failed)],
   t ++ [EHttp submission]).
Proof.
  intros Hkey Hseq Hlen Hiter Hchains submission Hnet Hcode.
  apply Z.eqb_neq in Hcode.
  unfold predict_multimer, dict_index.
  rewrite Hseq, bind_lift_Ok, Hlen, bind_lift_Ok, Hkey. cbn [negb]. reduce.
  rewrite Hiter, try_except_lift_Ok, Hchains, try_except_lift_Ok.
  run_monad.
  change (mkRequest POST (VStr (api_base_url self +:+ "/predict"))
            (Some (VDict [("sequences", VList chains);
                          ("modelPreset", VStr "multimer");
                          ("numPredictions", VInt 5)]))
            (Some (auth_headers self)) 30) with submission.
  rewrite Hnet. reduce. rewrite Hcode. reflexivity.
Qed.

(** C7: the first thing a [predict_multimer] call with a credential does is
    submit a payload whose 'sequences' entry, the chain list, holds each
    sequence as many times as its stoichiometry count says, in input order
    (the counts being integers, one for each sequence at least); without a
    stoichiometry the counts are all one, which gives one chain per
    sequence. *)
Theorem multimer_payload_replicates_sequences
    (config : dict) (seqs : list pyval) (t : trace) :
  truthy (api_key self) = true ->
  dict_lookup config "sequences" = Some (VList seqs) ->
  let submission chains :=
    mkRequest POST (VStr (api_base_url self +:+ "/predict"))
      (Some (VDict [("sequences", VList chains);
                    ("modelPreset", VStr "multimer");
                    ("numPredictions", VInt 5)]))
      (Some (auth_headers self)) 30 in
  (forall counts,
      dict_lookup config "stoichiometry" = Some (VList (map VInt counts)) ->
      (List.length seqs <= List.length counts)%nat ->
      exists ext,
        snd (predict_multimer self config t) =
        t ++ EHttp (submission
                      (flat_map (fun sc => repeat (VDict [("sequence", fst sc)])
                                                  (Z.to_nat (snd sc)))
                                (combine seqs counts)))
          :: ext) /\
  (dict_lookup config "stoichiometry" = None ->
   exists ext,
     snd (predict_multimer self config t) =
     t ++ EHttp (submission (map (fun s => VDict [("sequence", s)]) seqs)) :: ext) /\
  flat_map (fun sc => repeat (VDict [("sequence", fst sc)]) (Z.to_nat (snd sc)))
           (combine [VStr "A"; VStr "B"] [2; 1]) =
    [VDict [("sequence", VStr "A")]; VDict [("sequence", VStr "A")];
     VDict [("sequence", VStr "B")]].
Proof.
  intros Hkey Hseq submission.
  assert (Hsubmit : forall counts,
             dict_get config "stoichiometry"
                      (VList (repeat (VInt 1) (List.length seqs))) =
             VList (map VInt counts) ->
             (List.length seqs <= List.length counts)%nat ->
             exists ext,
               snd (predict_multimer self config t) =
               t ++ EHttp (submission (replicate_by_stoichiometry seqs counts)) :: ext).
  { intros counts Hst Hlen. unfold predict_multimer, dict_index.
    rewrite Hseq, bind_lift_Ok. cbn [py_len]. rewrite bind_lift_Ok, Hkey.
    cbn [negb]. reduce. rewrite Hst. cbn [py_iter].
    rewrite try_except_lift_Ok.
    pose proof (build_chains_of_counts seqs counts [] [] Hlen) as Hchains.
    cbn [app List.length] in Hchains.
    rewrite Hchains, try_except_lift_Ok.
    apply try_http_first.
    - intros r. destruct (status_code r =? 202); repeat extends_step.
      apply poll_job_status_extends.
    - intros e. apply extends_ret. }
  split; [|split].
  - intros counts Hst Hlen. apply Hsubmit; [|exact Hlen].
    unfold dict_get. now rewrite Hst.
  - intros Hst.
    change (map (fun s => VDict [("sequence", s)]) seqs) with (map chain seqs).
    rewrite <- (replicate_by_ones seqs).
    apply Hsubmit; [|now rewrite repeat_length].
    unfold dict_get. rewrite Hst. now rewrite map_repeat.
  - reflexivity.
Qed.

(** C10: with a credential, a list of sequences and a shorter list of
    stoichiometry counts, [predict_multimer] raises nothing: the exception
    of the chain construction (the [IndexError] of the missing count, when
    the counts present are integers) becomes a failure record, and no
    transport call is made. *)
Theorem short_stoichiometry_gives_failure_record
    (config : dict) (seqs st : list pyval) (t : trace) :
  truthy (api_key self) = true ->
  dict_lookup config "sequences" = Some (VList seqs) ->
  dict_lookup config "stoichiometry" = Some (VList st) ->
  (List.length st < List.length seqs)%nat ->
  exists e,
    predict_multimer self config t =
    (Ok [("error", VStr (exn_str e));
         ("status", failed);
         ("message", VStr ("Multimer prediction failed: " +:+ exn_str e))], t) /\
    ((forall c, In c st -> exists z, c = VInt z) ->
     e = IndexError "list index out of range").
Proof.
  intros Hkey Hseq Hst Hlen.
  destruct (build_chains_short st seqs 0 []) as (e & Hraise & Hindex); [lia|].
  exists e. split; [|exact Hindex].
  unfold predict_multimer, dict_index.
  rewrite Hseq, bind_lift_Ok. cbn [py_len]. rewrite bind_lift_Ok, Hkey.
  cbn [negb]. reduce. unfold dict_get. rewrite Hst. cbn [py_iter].
  rewrite try_except_lift_Ok, Hraise, try_except_lift_Raise. reflexivity.
Qed.

End Facade.

(** ** The facade on concrete inputs *)

Lemma public_operations_witness :
  (exists d t',
      predict_structure (rt := rt_offline) demo_bridge
        [("sequence", VStr "MKTAYIAK"); ("sequences", VList [VStr "A"; VStr "B"]);
         ("mode", VStr "batch")] [] =
      (Ok d, t') /\ tagged d) /\
  (exists d t',
      predict_multimer (rt := rt_offline) demo_bridge
        [("sequence", VStr "MKTAYIAK"); ("sequences", VList [VStr "A"; VStr "B"]);
         ("mode", VStr "batch")] [] =
      (Ok d, t') /\ tagged d).
Proof.
  destruct (public_operations_return_records (rt := rt_offline) demo_bridge
              [("sequence", VStr "MKTAYIAK"); ("sequences", VList [VStr "A"; VStr "B"]);
               ("mode", VStr "batch")] [])
    as (Hstructure & Hmultimer & _).
  split.
  - apply (Hstructure (VStr "MKTAYIAK")); [reflexivity|].
    right. right. reflexivity.
  - apply (Hmultimer (VList [VStr "A"; VStr "B"]) 2%nat); reflexivity.
Defined.

(** C1 as the specification words it fails: a configuration without the
    required entry makes [predict_structure] and [predict_multimer] raise
    [KeyError], an unknown mode that [str()] cannot format makes
    [predict_structure] raise [ValueError], a 'sequences' entry without a
    length makes [predict_multimer] raise [TypeError], and the record of
    [get_status] is not tagged. *)
Lemma public_operations_can_raise :
  predict_structure (rt := rt_offline) demo_bridge [] [] =
    (Raise (KeyError "'sequence'"), []) /\
  predict_structure (rt := rt_offline) demo_bridge
    [("sequence", VStr "MKTAYIAK"); ("mode", VInt ten_to_4300)] [] =
    (Raise digit_limit_error, []) /\
  predict_multimer (rt := rt_offline) demo_bridge [("job_name", VStr "dimer")] [] =
    (Raise (KeyError "'sequences'"), []) /\
  predict_multimer (rt := rt_offline) demo_bridge [("sequences", VInt 2)] [] =
    (Raise (TypeError "object of type 'int' has no len()"), []) /\
  (forall d, fst (get_status (rt := rt_offline) demo_bridge []) = Ok d -> ~ tagged d).
Proof.
  split; [reflexivity|]. split; [vm_compute; reflexivity|].
  repeat split; try reflexivity.
  intros d [= <-] [H|H]; discriminate H.
Qed.

Lemma missing_credential_witness :
  fst (__init__ None None false []) =
    Ok (mkBridge None "https://api.alphafoldserver.com/v1" false) /\
  predict_structure (rt := rt_offline)
    (mkBridge None "https://api.alphafoldserver.com/v1" false)
    [("sequence", VStr "MKTAYIAK"); ("sequences", VList [VStr "A"; VStr "B"])] [] =
    (Ok [("error", VStr "AlphaFold API key not set. Set ALPHAFOLD_API_KEY environment variable.");
         ("status", VStr "failed");
         ("message", VStr "API mode requires authentication")], []) /\
  predict_multimer (rt := rt_offline)
    (mkBridge None "https://api.alphafoldserver.com/v1" false)
    [("sequence", VStr "MKTAYIAK"); ("sequences", VList [VStr "A"; VStr "B"])] [] =
    (Ok [("error", VStr "Multimer prediction requires API access");
         ("status", VStr "failed")], []).
Proof.
  split; [reflexivity|].
  destruct (missing_credential_fails_without_transport (rt := rt_offline)
              (mkBridge None "https://api.alphafoldserver.com/v1" false)
              None None false []
              [("sequence", VStr "MKTAYIAK"); ("sequences", VList [VStr "A"; VStr "B"])] []
              eq_refl eq_refl eq_refl)
    as (Hstructure & Hmultimer).
  split.
  - apply (Hstructure (VStr "MKTAYIAK")); reflexivity.
  - apply (Hmultimer (VList [VStr "A"; VStr "B"]) 2%nat); reflexivity.
Defined.

Lemma multimer_payload_witness :
  (exists ext,
      snd (predict_multimer (rt := rt_rejected) demo_bridge
             [("sequences", VList [VStr "A"; VStr "B"]);
              ("stoichiometry", VList [VInt 2; VInt 1])] []) =
      EHttp (submit_query demo_bridge
               (multimer_payload [chain (VStr "A"); chain (VStr "A"); chain (VStr "B")]))
        :: ext) /\
  (exists ext,
      snd (predict_multimer (rt := rt_rejected) demo_bridge
             [("sequences", VList [VStr "A"; VStr "B"])] []) =
      EHttp (submit_query demo_bridge
               (multimer_payload [chain (VStr "A"); chain (VStr "B")]))
        :: ext).
Proof.
  split.
  - destruct (multimer_payload_replicates_sequences (rt := rt_rejected) demo_bridge
                [("sequences", VList [VStr "A"; VStr "B"]);
                 ("stoichiometry", VList [VInt 2; VInt 1])]
                [VStr "A"; VStr "B"] [] eq_refl eq_refl) as (Hgiven & _).
    apply (Hgiven [2; 1] eq_refl). cbn. lia.
  - destruct (multimer_payload_replicates_sequences (rt := rt_rejected) demo_bridge
                [("sequences", VList [VStr "A"; VStr "B"])]
                [VStr "A"; VStr "B"] [] eq_refl eq_refl) as (_ & Hdefault & _).
    exact (Hdefault eq_refl).
Defined.

Lemma short_stoichiometry_witness :
  exists e,
    predict_multimer (rt := rt_offline) demo_bridge
      [("sequences", VList [VStr "A"; VStr "B"]);
       ("stoichiometry", VList [VInt 2])] [] =
    (Ok [("error", VStr (exn_str e));
         ("status", VStr "failed");
         ("message", VStr ("Multimer prediction failed: " +:+ exn_str e))], []) /\
    e = IndexError "list index out of range".
Proof.
  destruct (short_stoichiometry_gives_failure_record (rt := rt_offline) demo_bridge
              [("sequences", VList [VStr "A"; VStr "B"]);
               ("stoichiometry", VList [VInt 2])]
              [VStr "A"; VStr "B"] [VInt 2] [] eq_refl eq_refl eq_refl)
    as (e & Hrun & Hindex).
  - cbn. lia.
  - exists e. split; [exact Hrun|]. apply Hindex.
    intros c [<-|[]]. now exists 2.
Defined.

(** C4 on a submission answered 500 with the body 'upstream exploded':
    [predict_structure] hands back the code and the body, [predict_multimer]
    the code alone; each makes the one transport call. *)
Theorem multimer_rejection_drops_response_body :
  status_code rejected_response = 500 /\
  text rejected_response = "upstream exploded" /\
  predict_structure (rt := rt_rejected) demo_bridge [("sequence", VStr "MKTAYIAK")] [] =
    (Ok [("error", VStr "API request failed: 500");
         ("status", VStr "failed");
         ("message", VStr "upstream exploded")],
     [EPrint "Submitting prediction job: holoscript_prediction";
      EHttp (submit_query demo_bridge (structure_payload (VStr "MKTAYIAK") (VInt 5) (VBool false)))]) /\
  predict_multimer (rt := rt_rejected) demo_bridge [("sequences", VList [VStr "A"])] [] =
    (Ok [("error", VStr "Multimer API request failed: 500");
         ("status", VStr "failed")],
     [EHttp (submit_query demo_bridge (multimer_payload [chain (VStr "A")]))]).
Proof. repeat split. Qed.

(** * Further properties of the poller *)

Lemma waited_app (t u : trace) : waited (t ++ u) = waited t + waited u.
Proof.
  unfold waited. induction t as [|[r|s|l] t IH]; cbn [app fold_right]; lia.
Qed.

Lemma waited_rounds (evs : list event) (n : nat) :
  waited (List.concat (repeat evs n)) = Z.of_nat n * waited evs.
Proof.
  induction n as [|n IH]; [reflexivity|].
  cbn [repeat List.concat]. rewrite waited_app, IH. lia.
Qed.

(** When every pass falls through after one transport call and one wait,
    the loop makes one call and one wait per item. *)
Lemma for_each_counts_calls_and_waits {A R} (body : A -> M (option R)) (seconds : Z) :
  (forall x t, exists t',
      body x t = (Ok None, t') /\
      http_count t' = S (http_count t) /\ waited t' = waited t + seconds) ->
  forall xs t, exists t',
      for_each xs body t = (Ok None, t') /\
      http_count t' = (http_count t + List.length xs)%nat /\
      waited t' = waited t + Z.of_nat (List.length xs) * seconds.
Proof.
  intros Hbody. induction xs as [|x xs IH]; intros t; cbn [for_each].
  - exists t. split; [reflexivity|]. cbn [List.length]. split; lia.
  - destruct (Hbody x t) as (t1 & E1 & Hc1 & Hw1).
    destruct (IH t1) as (t2 & E2 & Hc2 & Hw2).
    exists t2. split; [unfold bind; now rewrite E1|].
    cbn [List.length]. rewrite Nat2Z.inj_succ. split; lia.
Qed.

Section PollerMore.
Context {rt : Runtime}.
Variables (self : AlphaFoldBridge) (job_id headers : pyval).

Local Abbreviation url := (status_url self job_id).
Local Abbreviation query := (status_query self job_id headers).

(** On ['completed'], with both artifacts fetched and the confidence body a
    JSON object, the attempt returns the success record. *)
Lemma poll_attempt_completed t r d r1 r2 c :
  net t query = Ok r -> status_code r = 200 -> json r = Ok (VDict d) ->
  dict_get d "status" VNone = VStr "completed" ->
  let pdb := artifact_query (dict_get d "pdbUrl" VNone) in
  let conf := artifact_query (dict_get d "confidenceUrl" VNone) in
  net (t ++ [EHttp query]) pdb = Ok r1 ->
  net (t ++ [EHttp query; EHttp pdb]) conf = Ok r2 ->
  json r2 = Ok (VDict c) ->
  poll_attempt url job_id headers t =
  (Ok (Some [("status", success);
             ("job_id", job_id);
             ("pdb_data", VStr (text r1));
             ("confidence_scores", dict_get c "plddt" (VList []));
             ("mean_plddt", dict_get c "meanPlddt" (VFloat 0));
             ("pae_data", dict_get c "pae" VNone)]),
   t ++ [EHttp query; EHttp pdb; EHttp conf]).
Proof.
  intros Hnet Hcode Hjson Hget pdb conf Hpdb Hconf Hdec.
  unfold poll_attempt. run_monad.
  fold query. rewrite Hnet. reduce. rewrite Hcode, Z.eqb_refl, Hjson. reduce.
  unfold py_get at 1 2 3. reduce. rewrite Hget.
  change (py_eq_str (VStr "completed") "completed") with true. reduce.
  fold (artifact_query (dict_get d "pdbUrl" VNone)). fold pdb.
  fold (artifact_query (dict_get d "confidenceUrl" VNone)). fold conf.
  rewrite Hpdb. reduce. tidy_trace. rewrite Hconf. reduce. rewrite Hdec.
  tidy_trace. reflexivity.
Qed.

(** A 200 answer whose body does not decode, or decodes to something that
    is not a JSON object, is handled as a polling error. *)
Lemma poll_attempt_unreadable_body t r e :
  net t query = Ok r -> status_code r = 200 ->
  (json r = Raise e \/
   exists v, json r = Ok v /\ (forall d, v <> VDict d) /\ e = AttributeError v "get") ->
  poll_attempt url job_id headers t =
  (Ok None, t ++ [EHttp query; EPrint (polling_error_line e); ESleep poll_interval]).
Proof.
  intros Hnet Hcode Hbody.
  unfold poll_attempt. run_monad.
  fold query. rewrite Hnet. reduce. rewrite Hcode, Z.eqb_refl.
  destruct Hbody as [Hdec | (v & Hdec & Hv & ->)]; rewrite Hdec; reduce.
  - tidy_trace. reflexivity.
  - destruct v as [| | | | | |d];
      try (unfold py_get at 1; reduce; tidy_trace; reflexivity).
    now destruct (Hv d).
Qed.

(** X1: at whatever attempt the status response says completed, the poller
    fetches the structure file and the confidence data (two transport calls,
    sent without headers) and returns the success record: the job id, the
    text of the structure file, and the confidence entries, each with its
    default when the confidence object lacks it. *)
Theorem completed_status_assembles_result
    (k : nat) (t tk : trace) (r r1 r2 : response) (d c : dict) :
  (k < max_polls)%nat ->
  poll_loop url job_id headers k t = (Ok None, tk) ->
  net tk query = Ok r -> status_code r = 200 -> json r = Ok (VDict d) ->
  dict_get d "status" VNone = VStr "completed" ->
  let pdb := artifact_query (dict_get d "pdbUrl" VNone) in
  let conf := artifact_query (dict_get d "confidenceUrl" VNone) in
  net (tk ++ [EHttp query]) pdb = Ok r1 ->
  net (tk ++ [EHttp query; EHttp pdb]) conf = Ok r2 ->
  json r2 = Ok (VDict c) ->
  _poll_job_status self job_id headers t =
  (Ok [("status", success);
       ("job_id", job_id);
       ("pdb_data", VStr (text r1));
       ("confidence_scores", dict_get c "plddt" (VList []));
       ("mean_plddt", dict_get c "meanPlddt" (VFloat 0));
       ("pae_data", dict_get c "pae" VNone)],
   tk ++ [EHttp query; EHttp pdb; EHttp conf]) /\
  req_headers pdb = None /\ req_headers conf = None.
Proof.
  intros Hk Hloop Hnet Hcode Hjson Hget pdb conf Hpdb Hconf Hdec.
  split; [|split; reflexivity].
  apply (poll_job_status_returns _ _ _ k t tk); auto.
  now apply (poll_attempt_completed tk r d r1 r2 c).
Qed.

(** X2: a transport failure of a status query does not end the polling: the
    attempt logs the error, waits the poll interval and falls through; when
    every status query fails, with whatever exceptions, the poller makes
    its 60 queries, waits 600 seconds in all and returns the timeout
    record; when they all fail with the same exception the trace is 60
    rounds of query, log line and wait. *)
Theorem transport_errors_use_the_same_budget (t : trace) :
  (forall k tk e,
      poll_loop url job_id headers k t = (Ok None, tk) ->
      net tk query = Raise e ->
      poll_loop url job_id headers (S k) t =
        (Ok None, tk ++ [EHttp query; EPrint (polling_error_line e);
                         ESleep poll_interval])) /\
  ((forall t', exists e, net t' query = Raise e) ->
   exists t_end,
     _poll_job_status self job_id headers t =
       (Ok [("error", VStr "Job timeout after 10 minutes");
            ("status", failed);
            ("job_id", job_id)], t_end) /\
     http_count t_end = (http_count t + 60)%nat /\
     waited t_end = waited t + 600) /\
  (forall e,
      (forall t', net t' query = Raise e) ->
      _poll_job_status self job_id headers t =
        (Ok (timeout_result job_id),
         t ++ List.concat (repeat [EHttp query; EPrint (polling_error_line e);
                                   ESleep poll_interval] 60))).
Proof.
  split; [|split].
  - intros k tk e Hloop Hnet.
    apply (poll_loop_next _ _ _ k t tk); auto.
    now apply poll_attempt_query_raises.
  - intros Hdown.
    destruct (for_each_counts_calls_and_waits
                (fun _ : nat => poll_attempt url job_id headers) 10) with
      (xs := seq 0 max_polls) (t := t) as (t_end & E & Hc & Hw).
    + intros _ t'. destruct (Hdown t') as [e Hnet].
      eexists.
      split; [exact (poll_attempt_query_raises self job_id headers t' e Hnet)|].
      rewrite http_count_app, waited_app.
      change (http_count [EHttp query; EPrint (polling_error_line e);
                          ESleep poll_interval]) with 1%nat.
      change (waited [EHttp query; EPrint (polling_error_line e);
                      ESleep poll_interval]) with 10.
      split; lia.
    + exists t_end. rewrite length_seq in Hc, Hw. split; [|split].
      * unfold _poll_job_status, poll_loop. reduce. fold url. unfold bind.
        now rewrite E.
      * exact Hc.
      * unfold max_polls in Hw. lia.
  - intros e Hdown. apply poll_job_status_times_out. intros t'.
    now apply poll_attempt_query_raises.
Qed.

(** X3: a 200 status answer whose body is not JSON, or is JSON but not an
    object, is treated like a transport failure: logged, waited out, and
    the next attempt follows. *)
Theorem unreadable_status_body_is_retried
    (k : nat) (t tk : trace) (r : response) :
  poll_loop url job_id headers k t = (Ok None, tk) ->
  net tk query = Ok r -> status_code r = 200 ->
  (forall e, json r = Raise e ->
             poll_loop url job_id headers (S k) t =
               (Ok None, tk ++ [EHttp query; EPrint (polling_error_line e);
                                ESleep poll_interval])) /\
  (forall v, json r = Ok v -> (forall d, v <> VDict d) ->
             poll_loop url job_id headers (S k) t =
               (Ok None, tk ++ [EHttp query;
                                EPrint (polling_error_line (AttributeError v "get"));
                                ESleep poll_interval])).
Proof.
  intros Hloop Hnet Hcode. split.
  - intros e Hdec. apply (poll_loop_next _ _ _ k t tk); auto.
    apply (poll_attempt_unreadable_body tk r e); auto.
  - intros v Hdec Hv. apply (poll_loop_next _ _ _ k t tk); auto.
    apply (poll_attempt_unreadable_body tk r); auto.
    right. exists v. auto.
Qed.

End PollerMore.

(** ** The budget of transport calls and of waiting *)

Lemma http_count_snoc_http (t : trace) q :
  http_count (t ++ [EHttp q]) = S (http_count t).
Proof. rewrite http_count_app. cbn. lia. Qed.

Lemma http_count_snoc_print (t : trace) line :
  http_count (t ++ [EPrint line]) = http_count t.
Proof. rewrite http_count_app. cbn. lia. Qed.

Lemma http_count_snoc_sleep (t : trace) s :
  http_count (t ++ [ESleep s]) = http_count t.
Proof. rewrite http_count_app. cbn. lia. Qed.

Lemma waited_snoc_http (t : trace) q : waited (t ++ [EHttp q]) = waited t.
Proof. rewrite waited_app. cbn. lia. Qed.

Lemma waited_snoc_print (t : trace) line : waited (t ++ [EPrint line]) = waited t.
Proof. rewrite waited_app. cbn. lia. Qed.

Lemma waited_snoc_sleep (t : trace) s : waited (t ++ [ESleep s]) = waited t + s.
Proof. rewrite waited_app. cbn. lia. Qed.

Create Rewrite HintDb trace_counts.
#[local] Hint Rewrite http_count_snoc_http http_count_snoc_print http_count_snoc_sleep
  waited_snoc_http waited_snoc_print waited_snoc_sleep : trace_counts.

(** [m] makes no transport call and does not sleep. *)
Local Abbreviation quiet m :=
  (forall t, http_count (snd (m t)) = http_count t /\ waited (snd (m t)) = waited t).

Lemma quiet_ret {A} (a : A) : quiet (ret a).
Proof. now intros t. Qed.

Lemma quiet_lift {A} (o : outcome A) : quiet (lift o).
Proof. now intros t. Qed.

Lemma quiet_print line : quiet (print line).
Proof. intros t. unfold print. cbn [snd]. now autorewrite with trace_counts. Qed.

Lemma within_ret {A} (a : A) calls seconds : 0 <= seconds -> within calls seconds (ret a).
Proof. intros Hs t. unfold ret. cbn [snd]. lia. Qed.

Lemma within_quiet {A} (m : M A) calls seconds :
  quiet m -> 0 <= seconds -> within calls seconds m.
Proof. intros Hm Hs t. destruct (Hm t). lia. Qed.

Lemma within_bind_quiet {A B} (m : M A) (k : A -> M B) calls seconds :
  quiet m -> 0 <= seconds ->
  (forall a, within calls seconds (k a)) -> within calls seconds (bind m k).
Proof.
  intros Hm Hs Hk t. unfold bind. destruct (Hm t) as [Hc Hw].
  destruct (m t) as [[a|e] t1]; cbn [snd] in *.
  - destruct (Hk a t1). lia.
  - lia.
Qed.

Lemma within_bind_http {rt : Runtime} {B} q (k : response -> M B) calls seconds :
  0 <= seconds ->
  (forall r, within calls seconds (k r)) -> within (S calls) seconds (bind (http q) k).
Proof.
  intros Hs Hk t. unfold bind, http.
  destruct (net t q) as [r|e]; cbn [snd].
  - destruct (Hk r (t ++ [EHttp q])) as [Hc Hw].
    autorewrite with trace_counts in Hc, Hw. lia.
  - autorewrite with trace_counts. lia.
Qed.

Lemma within_try_quiet {A} (m : M A) (h : exn -> M A) calls seconds :
  within calls seconds m -> (forall e, quiet (h e)) ->
  within calls seconds (try_except m h).
Proof.
  intros Hm Hh t. unfold try_except. destruct (Hm t) as [Hc Hw].
  destruct (m t) as [[a|e] t1]; cbn [snd] in *.
  - lia.
  - destruct (Hh e t1). lia.
Qed.

Lemma within_weaken {A} (m : M A) calls seconds calls' seconds' :
  within calls seconds m -> (calls <= calls')%nat -> seconds <= seconds' ->
  within calls' seconds' m.
Proof. intros Hm Hc Hs t. destruct (Hm t). lia. Qed.

Lemma within_for_each {A R} (body : A -> M (option R)) calls seconds :
  0 <= seconds -> (forall x, within calls seconds (body x)) ->
  forall xs, within (List.length xs * calls) (Z.of_nat (List.length xs) * seconds)
                    (for_each xs body).
Proof.
  intros Hs Hbody. induction xs as [|x xs IH]; intros t; cbn [for_each].
  - unfold ret. cbn [snd List.length]. lia.
  - unfold bind. destruct (Hbody x t) as [Hc Hw].
    specialize (IH (snd (body x t))).
    destruct IH as [IHc IHw], (body x t) as [[[r|]|e] t1];
      unfold ret; cbn [snd List.length] in *; rewrite Nat2Z.inj_succ;
      split; nia.
Qed.

(** Destructs a [match] whose scrutinee holds no [match] itself. *)
Ltac split_innermost_match :=
  match goal with
  | |- context [match ?x with _ => _ end] =>
      lazymatch x with
      | context [match _ with _ => _ end] => fail
      | _ => destruct x
      end
  end.

Section Budget.
Context {rt : Runtime}.
Variable self : AlphaFoldBridge.

(** One attempt: the status query and at most the two fetches, and at most
    one wait of the poll interval. *)
Lemma poll_attempt_within (u : string) (job_id headers : pyval) :
  within 3 10 (poll_attempt u job_id headers).
Proof.
  intros t. unfold poll_attempt. run_monad. unfold py_get.
  repeat (split_innermost_match; reduce);
    cbn [snd]; autorewrite with trace_counts; unfold poll_interval; lia.
Qed.

Lemma poll_job_status_within (job_id headers : pyval) :
  within 180 600 (_poll_job_status self job_id headers).
Proof.
  unfold _poll_job_status. reduce. intros t. unfold bind, poll_loop.
  set (u := api_base_url self +:+ "/jobs/" +:+ py_str job_id).
  pose proof (within_for_each (fun _ : nat => poll_attempt u job_id headers)
                3 10 ltac:(lia)
                (fun _ => poll_attempt_within u job_id headers)
                (seq 0 max_polls) t) as [Hc Hw].
  rewrite length_seq in Hc, Hw. unfold max_polls in *.
  change (60 * 3)%nat with 180%nat in Hc.
  change (Z.of_nat 60 * 10) with 600 in Hw.
  destruct (for_each _ _ t) as [[[d|]|e] t1]; unfold ret; cbn [snd] in *; lia.
Qed.

(** X4: however the transport behaves and whatever the configuration holds,
    one call of [_poll_job_status] makes at most 180 transport calls and
    sleeps at most 600 seconds; [predict_structure] and [predict_multimer]
    add the one submission to that; [get_status] makes no call at all. *)
Theorem operations_stay_within_budget (config : dict) (job_id headers : pyval) :
  within 180 600 (_poll_job_status self job_id headers) /\
  within 181 600 (predict_structure self config) /\
  within 181 600 (predict_multimer self config) /\
  within 0 0 (get_status self).
Proof.
  split; [apply poll_job_status_within|]. split; [|split].
  - unfold predict_structure.
    apply within_bind_quiet; [apply quiet_lift | lia |]. intros sequence. reduce.
    destruct (py_eq_str _ "api"); [|destruct (py_eq_str _ "local")].
    + unfold _predict_via_api. destruct (negb _); [apply within_ret; lia|].
      apply within_try_quiet; [|intros e; apply quiet_ret]. reduce.
      apply within_bind_quiet; [apply quiet_lift | lia |]. intros job_name_text.
      apply within_bind_quiet; [apply quiet_print | lia |]. intros _.
      apply within_bind_http; [lia|]. intros r.
      destruct (status_code r =? 202); [|apply within_ret; lia].
      do 2 (apply within_bind_quiet; [apply quiet_lift | lia |]; intros ?).
      apply within_bind_quiet; [apply quiet_print | lia |]. intros _.
      apply poll_job_status_within.
    + unfold _predict_via_colabfold. destruct (negb _); [apply within_ret; lia|].
      apply within_try_quiet; [apply within_ret; lia | intros e; apply quiet_ret].
    + apply within_bind_quiet; [apply quiet_lift | lia |]. intros mode_text.
      apply within_ret; lia.
  - unfold predict_multimer.
    do 2 (apply within_bind_quiet; [apply quiet_lift | lia |]; intros ?). reduce.
    destruct (negb _); [apply within_ret; lia|].
    apply within_try_quiet; [|intros e; apply quiet_ret]. reduce.
    do 2 (apply within_bind_quiet; [apply quiet_lift | lia |]; intros ?).
    apply within_bind_http; [lia|]. intros r.
    destruct (status_code r =? 202); [|apply within_ret; lia].
    do 2 (apply within_bind_quiet; [apply quiet_lift | lia |]; intros ?).
    apply poll_job_status_within.
  - apply within_ret. lia.
Qed.

End Budget.

(** ** The shape of the records *)

Lemma returns_weaken {A} (P Q : A -> Prop) (m : M A) :
  returns P m -> (forall a, P a -> Q a) -> returns Q m.
Proof.
  intros Hm HPQ t. destruct (Hm t) as (a & t' & E & HP). exists a, t'. auto.
Qed.

Lemma failure_with_message (e m : string) :
  result_record [("error", VStr e); ("status", failed); ("message", VStr m)].
Proof. left. split; [reflexivity | now exists e]. Qed.

Lemma failure_without_message (e : string) :
  result_record [("error", VStr e); ("status", failed)].
Proof. left. split; [reflexivity | now exists e]. Qed.

Lemma job_failure_record (e : string) (job_id : pyval) :
  job_record job_id [("error", VStr e); ("status", failed); ("job_id", job_id)].
Proof. split; [left; split; [reflexivity | now exists e] | reflexivity]. Qed.

Lemma job_success_record (job_id : pyval) (pdb : string) (scores mean pae : pyval) :
  job_record job_id
    [("status", success); ("job_id", job_id); ("pdb_data", VStr pdb);
     ("confidence_scores", scores); ("mean_plddt", mean); ("pae_data", pae)].
Proof.
  split; [right|reflexivity].
  repeat (split; [first [reflexivity | discriminate | now exists pdb]|]).
  reflexivity.
Qed.

Section Records.
Context {rt : Runtime}.
Variable self : AlphaFoldBridge.

Lemma poll_attempt_returns_job_record (u : string) (job_id headers : pyval) :
  returns (job_record_or_none job_id) (poll_attempt u job_id headers).
Proof.
  unfold poll_attempt. apply returns_try_except.
  - repeat ensures_step; cbn [job_record_or_none];
      first [ exact I | apply job_success_record | apply job_failure_record ].
  - intros e.
    apply (returns_bind (fun _ => True)); [now apply returns_print|]. intros _ _.
    apply (returns_bind (fun _ => True)); [now apply returns_sleep|]. intros _ _.
    now apply returns_ret.
Qed.

Lemma poll_job_status_returns_job_record (job_id headers : pyval) :
  returns (job_record job_id) (_poll_job_status self job_id headers).
Proof.
  unfold _poll_job_status. reduce.
  apply (returns_bind (job_record_or_none job_id)).
  - unfold poll_loop. apply returns_for_each; [exact I|].
    intros _. apply poll_attempt_returns_job_record.
  - intros [d|] Hd; apply returns_ret; [exact Hd | apply job_failure_record].
Qed.

Lemma poll_job_status_returns_record (job_id headers : pyval) :
  returns result_record (_poll_job_status self job_id headers).
Proof.
  apply (returns_weaken (job_record job_id));
    [apply poll_job_status_returns_job_record | now intros d [Hd _]].
Qed.

(** X5: whatever the transport does, [_poll_job_status] raises nothing and
    returns a record that names the job it was asked about: either a
    failure record (tagged 'failed', with a message under 'error') or a
    success record (tagged 'success', with the structure file and the
    confidence entries, and no 'error'). *)
Theorem poller_returns_a_record_of_its_job (job_id headers : pyval) (t : trace) :
  exists d t',
    _poll_job_status self job_id headers t = (Ok d, t') /\
    dict_lookup d "job_id" = Some job_id /\
    (failure_record d \/ success_record d).
Proof.
  destruct (poll_job_status_returns_job_record job_id headers t)
    as (d & t' & E & Hrecord & Hjob).
  now exists d, t'.
Qed.

Lemma predict_via_api_returns_record (sequence job_name num_models use_templates : pyval) :
  returns result_record
          (_predict_via_api self sequence job_name num_models use_templates).
Proof.
  unfold _predict_via_api. destruct (negb (truthy (api_key self))).
  - apply returns_ret, failure_with_message.
  - apply returns_try_except.
    + reduce. do 2 (apply ensures_bind; intros ?).
      apply ensures_bind; intros response.
      destruct (status_code response =? 202).
      * do 3 (apply ensures_bind; intros ?).
        apply returns_ensures, poll_job_status_returns_record.
      * apply ensures_ret, failure_with_message.
    + intros e. apply returns_ret, failure_with_message.
Qed.

Lemma predict_via_colabfold_returns_record (sequence job_name num_models : pyval) :
  returns result_record (_predict_via_colabfold self sequence job_name num_models).
Proof.
  unfold _predict_via_colabfold. destruct (negb (colabfold_available self)).
  - apply returns_ret, failure_with_message.
  - apply returns_try_except.
    + apply ensures_ret, failure_with_message.
    + intros e. apply returns_ret, failure_with_message.
Qed.

Lemma predict_structure_ensures_record (config : dict) :
  ensures result_record (predict_structure self config).
Proof.
  unfold predict_structure. apply ensures_bind; intros sequence. reduce.
  destruct (py_eq_str _ "api"); [|destruct (py_eq_str _ "local")].
  - apply returns_ensures, predict_via_api_returns_record.
  - apply returns_ensures, predict_via_colabfold_returns_record.
  - apply ensures_bind; intros mode_text.
    apply ensures_ret, failure_without_message.
Qed.

Lemma predict_multimer_ensures_record (config : dict) :
  ensures result_record (predict_multimer self config).
Proof.
  unfold predict_multimer. do 2 (apply ensures_bind; intros ?). reduce.
  destruct (negb (truthy (api_key self))).
  - apply ensures_ret, failure_without_message.
  - apply returns_ensures, returns_try_except.
    + reduce. do 3 (apply ensures_bind; intros ?).
      match goal with |- ensures _ (if ?b then _ else _) => destruct b end.
      * do 2 (apply ensures_bind; intros ?).
        apply returns_ensures, poll_job_status_returns_record.
      * apply ensures_ret, failure_without_message.
    + intros e. apply returns_ret, failure_with_message.
Qed.

(** X6: every record [predict_structure] and [predict_multimer] return is
    either a failure record, tagged 'failed' and with a message string
    under 'error', or a success record, tagged 'success', with the
    structure file as a string, the job id and the three confidence
    entries, and no 'error'; and they do return one, [predict_structure]
    given a 'sequence' and a mode that is 'api', 'local' or can be
    formatted, [predict_multimer] given 'sequences' with a length. *)
Theorem facade_records_are_well_formed (config : dict) (t : trace) :
  (forall d t',
      predict_structure self config t = (Ok d, t') ->
      failure_record d \/ success_record d) /\
  (forall d t',
      predict_multimer self config t = (Ok d, t') ->
      failure_record d \/ success_record d) /\
  (forall sequence,
      dict_lookup config "sequence" = Some sequence ->
      let mode := dict_get config "mode" (VStr "api") in
      py_eq_str mode "api" = true \/ py_eq_str mode "local" = true \/
      str_raises mode = None ->
      exists d t', predict_structure self config t = (Ok d, t')) /\
  (forall sequences n,
      dict_lookup config "sequences" = Some sequences ->
      py_len sequences = Ok n ->
      exists d t', predict_multimer self config t = (Ok d, t')).
Proof.
  split; [|split; [|split]].
  - intros d t' E. pose proof (predict_structure_ensures_record config t) as H.
    now rewrite E in H.
  - intros d t' E. pose proof (predict_multimer_ensures_record config t) as H.
    now rewrite E in H.
  - intros sequence Hseq mode Hmode. unfold predict_structure, dict_index.
    rewrite Hseq, bind_lift_Ok. fold mode.
    destruct (py_eq_str mode "api") eqn:Hapi.
    + destruct (predict_via_api_returns_record sequence
                  (dict_get config "job_name" (VStr "holoscript_prediction"))
                  (dict_get config "num_models" (VInt 5))
                  (dict_get config "use_templates" (VBool false)) t)
        as (d & t' & E & _).
      now exists d, t'.
    + destruct (py_eq_str mode "local") eqn:Hlocal.
      * destruct (predict_via_colabfold_returns_record sequence
                    (dict_get config "job_name" (VStr "holoscript_prediction"))
                    (dict_get config "num_models" (VInt 5)) t)
          as (d & t' & E & _).
        now exists d, t'.
      * destruct Hmode as [H|[H|H]]; try discriminate H.
        unfold format_value. rewrite H, bind_lift_Ok. now do 2 eexists.
  - intros sequences n Hseq Hlen.
    assert (H : returns result_record (predict_multimer self config)).
    { unfold predict_multimer, dict_index. intros t0.
      rewrite Hseq, bind_lift_Ok, Hlen, bind_lift_Ok. revert t0.
      destruct (negb (truthy (api_key self))).
      - apply returns_ret, failure_without_message.
      - apply returns_try_except.
        + reduce. do 3 (apply ensures_bind; intros ?).
          match goal with |- ensures _ (if ?b then _ else _) => destruct b end.
          * do 2 (apply ensures_bind; intros ?).
            apply returns_ensures, poll_job_status_returns_record.
          * apply ensures_ret, failure_without_message.
        + intros e. apply returns_ret, failure_with_message. }
    destruct (H t) as (d & t' & E & _). now exists d, t'.
Qed.

End Records.

(** * Further properties of the facade *)

Section Dispatch.
Context {rt : Runtime}.
Variable self : AlphaFoldBridge.

(** X7: a mode other than 'api' and 'local' keeps [predict_structure] away
    from the transport, whether or not a credential is set: when [str()]
    can format the mode the unknown-mode failure record is returned, and
    when it cannot (an integer beyond the digit limit) its exception
    reaches the caller; the trace stays as it was either way. *)
Theorem unknown_mode_fails_without_transport
    (config : dict) (sequence mode : pyval) (t : trace) :
  dict_lookup config "sequence" = Some sequence ->
  dict_lookup config "mode" = Some mode ->
  py_eq_str mode "api" = false -> py_eq_str mode "local" = false ->
  (str_raises mode = None ->
   predict_structure self config t =
   (Ok [("error", VStr ("Unknown prediction mode: " +:+ py_str mode));
        ("status", failed)], t)) /\
  (forall e, str_raises mode = Some e ->
             predict_structure self config t = (Raise e, t)).
Proof.
  intros Hseq Hmode Hapi Hlocal.
  assert (E : predict_structure self config t =
              bind (lift (format_value mode))
                   (fun mode_text =>
                      ret [("error", VStr ("Unknown prediction mode: " +:+ mode_text));
                           ("status", failed)]) t).
  { unfold predict_structure, dict_index.
    rewrite Hseq, bind_lift_Ok. unfold dict_get. rewrite Hmode, Hapi, Hlocal.
    reflexivity. }
  rewrite E. unfold format_value. split.
  - intros ->. reflexivity.
  - intros e ->. reflexivity.
Qed.

(** X8: in mode 'local' [predict_structure] never succeeds and never
    touches the transport: without ColabFold it says so, with ColabFold it
    says that local prediction is not implemented. *)
Theorem local_mode_always_fails (config : dict) (sequence : pyval) (t : trace) :
  dict_lookup config "sequence" = Some sequence ->
  dict_lookup config "mode" = Some (VStr "local") ->
  predict_structure self config t =
  (Ok (if colabfold_available self
       then [("error", VStr "Local ColabFold prediction not yet implemented");
             ("status", failed);
             ("message", VStr ("Use API mode for now: mode=" +:+ dquote +:+ "api" +:+ dquote))]
       else [("error", VStr "ColabFold not installed");
             ("status", failed);
             ("message", VStr "Install ColabFold: pip install colabfold")]), t).
Proof.
  intros Hseq Hmode. unfold predict_structure, dict_index.
  rewrite Hseq, bind_lift_Ok. unfold dict_get. rewrite Hmode.
  change (py_eq_str (VStr "local") "api") with false.
  change (py_eq_str (VStr "local") "local") with true. reduce.
  unfold _predict_via_colabfold. now destruct (colabfold_available self).
Qed.

(** X13: [predict_multimer] reads 'sequences' and 'stoichiometry' only: two
    configurations that agree on these two entries give the same run,
    whatever else (a job name, a model count, a mode) they hold. *)
Theorem multimer_reads_two_entries_only (config config' : dict) (t : trace) :
  dict_lookup config "sequences" = dict_lookup config' "sequences" ->
  dict_lookup config "stoichiometry" = dict_lookup config' "stoichiometry" ->
  predict_multimer self config t = predict_multimer self config' t.
Proof.
  intros Hseq Hst. unfold predict_multimer, dict_index, dict_get.
  now rewrite Hseq, Hst.
Qed.

End Dispatch.

Section Construction.
Context {rt : Runtime}.

(** X9: a bridge built by [__init__] holds the explicit key when that is a
    non-empty string and the environment's key otherwise; its [get_status]
    reports a remote service as available exactly when one of the two is a
    non-empty string, reports ColabFold as the import found it, and adds
    nothing to the trace. *)
Theorem status_reflects_construction
    (explicit environ : option string) (colabfold : bool) (t0 : trace) :
  exists self line,
    __init__ explicit environ colabfold t0 = (Ok self, t0 ++ [EPrint line]) /\
    api_key self = (if truthy explicit then explicit else environ) /\
    forall t,
      get_status self t =
      (Ok [("api_available", VBool (truthy explicit || truthy environ));
           ("colabfold_available", VBool colabfold);
           ("python_version", VStr sys_version);
           ("module", VStr "alphafold_bridge");
           ("version", VStr "1.0.0")], t).
Proof.
  unfold __init__, bind, print, ret.
  destruct colabfold; do 2 eexists; (split; [reflexivity|]);
    (split; [reflexivity|]); intros t; unfold get_status, ret, py_or;
    cbn [api_key colabfold_available];
    destruct (truthy explicit) eqn:E; cbn [orb]; now rewrite ?E.
Qed.

End Construction.

(** ** What becomes of a submission *)

Section SubmissionOutcomes.
Context {rt : Runtime}.
Variable self : AlphaFoldBridge.
Hypothesis Hkey : truthy (api_key self) = true.

Lemma job_id_of_Raise (r : response) (e : exn) {B} (k : pyval -> M B) t :
  job_id_of r = Raise e ->
  bind (lift (json r)) (fun job_data => bind (lift (py_get job_data "jobId" VNone)) k) t =
  (Raise e, t).
Proof.
  unfold job_id_of, bind, lift. destruct (json r) as [v|e'].
  - now intros ->.
  - now intros [= ->].
Qed.

Lemma job_id_of_Ok (r : response) (job_id : pyval) {B} (k : pyval -> M B) t :
  job_id_of r = Ok job_id ->
  bind (lift (json r)) (fun job_data => bind (lift (py_get job_data "jobId" VNone)) k) t =
  k job_id t.
Proof.
  unfold job_id_of, bind, lift. destruct (json r) as [v|e']; [|discriminate].
  now intros ->.
Qed.

(** A job name that [str()] cannot format sends [predict_structure] to its
    handler before anything is logged or submitted. *)
Lemma predict_structure_job_name_raises (config : dict) (sequence : pyval)
    (t : trace) (e : exn) :
  dict_lookup config "sequence" = Some sequence ->
  py_eq_str (dict_get config "mode" (VStr "api")) "api" = true ->
  str_raises (dict_get config "job_name" (VStr "holoscript_prediction")) = Some e ->
  predict_structure self config t =
  (Ok [("error", VStr (exn_str e));
       ("status", failed);
       ("message", VStr ("AlphaFold API prediction failed: " +:+ exn_str e))], t).
Proof.
  intros Hseq Hmode Hfmt. unfold predict_structure, dict_index.
  rewrite Hseq, bind_lift_Ok, Hmode. unfold _predict_via_api.
  rewrite Hkey. cbn [negb]. reduce. unfold format_value. rewrite Hfmt.
  reflexivity.
Qed.

Section Structure.
Variables (config : dict) (sequence : pyval) (t : trace).
Hypothesis Hseq : dict_lookup config "sequence" = Some sequence.
Hypothesis Hmode : py_eq_str (dict_get config "mode" (VStr "api")) "api" = true.
Hypothesis Hfmt :
  str_raises (dict_get config "job_name" (VStr "holoscript_prediction")) = None.

Let line := submitting_line (dict_get config "job_name" (VStr "holoscript_prediction")).
Let submission :=
  submit_query self (structure_payload sequence
                       (dict_get config "num_models" (VInt 5))
                       (dict_get config "use_templates" (VBool false))).

(** The run of [predict_structure] up to the answer to its submission. *)
Lemma predict_structure_unfolds :
  predict_structure self config t =
  try_except
    (bind (http submission)
       (fun response =>
          if status_code response =? 202 then
            bind (lift (json response))
              (fun job_data =>
                 bind (lift (py_get job_data "jobId" VNone))
                   (fun job_id =>
                      bind (print ("Job ID: " +:+ py_str job_id +:+ ". Polling for completion..."))
                        (fun _ => _poll_job_status self job_id (auth_headers self))))
          else
            ret [("error", VStr ("API request failed: " +:+ str_of_Z (status_code response)));
                 ("status", failed);
                 ("message", VStr (text response))]))
    (fun e =>
       ret [("error", VStr (exn_str e));
            ("status", failed);
            ("message", VStr ("AlphaFold API prediction failed: " +:+ exn_str e))])
    (t ++ [EPrint line]).
Proof.
  unfold predict_structure, dict_index.
  rewrite Hseq, bind_lift_Ok, Hmode. unfold _predict_via_api.
  rewrite Hkey. cbn [negb]. reduce. unfold format_value. rewrite Hfmt.
  reflexivity.
Qed.

Lemma predict_structure_transport_fails e :
  net (t ++ [EPrint line]) submission = Raise e ->
  predict_structure self config t =
  (Ok [("error", VStr (exn_str e));
       ("status", failed);
       ("message", VStr ("AlphaFold API prediction failed: " +:+ exn_str e))],
   t ++ [EPrint line; EHttp submission]).
Proof.
  intros Hnet. rewrite predict_structure_unfolds.
  unfold try_except, bind at 1, http. rewrite Hnet. reduce. tidy_trace. reflexivity.
Qed.

Lemma predict_structure_accepted_unreadable r e :
  net (t ++ [EPrint line]) submission = Ok r -> status_code r = 202 ->
  job_id_of r = Raise e ->
  predict_structure self config t =
  (Ok [("error", VStr (exn_str e));
       ("status", failed);
       ("message", VStr ("AlphaFold API prediction failed: " +:+ exn_str e))],
   t ++ [EPrint line; EHttp submission]).
Proof.
  intros Hnet Hcode Hjob. rewrite predict_structure_unfolds.
  unfold try_except, bind at 1, http. rewrite Hnet. reduce.
  rewrite Hcode, Z.eqb_refl, (job_id_of_Raise r e _ _ Hjob).
  reduce. tidy_trace. reflexivity.
Qed.

Lemma predict_structure_accepted r job_id :
  net (t ++ [EPrint line]) submission = Ok r -> status_code r = 202 ->
  job_id_of r = Ok job_id ->
  predict_structure self config t =
  _poll_job_status self job_id (auth_headers self)
    (t ++ [EPrint line; EHttp submission;
           EPrint ("Job ID: " +:+ py_str job_id +:+ ". Polling for completion...")]).
Proof.
  intros Hnet Hcode Hjob. rewrite predict_structure_unfolds.
  unfold try_except, bind at 1, http. rewrite Hnet. reduce.
  rewrite Hcode, Z.eqb_refl, (job_id_of_Ok r job_id _ _ Hjob).
  unfold bind, print. reduce. tidy_trace.
  destruct (poll_job_status_returns_tagged self job_id (auth_headers self)
              (t ++ [EPrint line; EHttp submission;
                     EPrint ("Job ID: " +:+ py_str job_id +:+ ". Polling for completion...")]))
    as (d & t' & E & _).
  now rewrite E.
Qed.

End Structure.

Section Multimer.
Variables (config : dict) (sequences : pyval) (n : nat) (items chains : list pyval)
          (t : trace).
Hypothesis Hseq : dict_lookup config "sequences" = Some sequences.
Hypothesis Hlen : py_len sequences = Ok n.
Hypothesis Hiter : py_iter sequences = Ok items.
Hypothesis Hchains :
  build_chains (dict_get config "stoichiometry" (VList (repeat (VInt 1) n)))
               0 items [] = Ok chains.

Let submission := submit_query self (multimer_payload chains).

Lemma predict_multimer_unfolds :
  predict_multimer self config t =
  try_except
    (bind (http submission)
       (fun response =>
          if status_code response =? 202 then
            bind (lift (json response))
              (fun job_data =>
                 bind (lift (py_get job_data "jobId" VNone))
                   (fun job_id => _poll_job_status self job_id (auth_headers self)))
          else
            ret [("error", VStr ("Multimer API request failed: " +:+ str_of_Z (status_code response)));
                 ("status", failed)]))
    (fun e =>
       ret [("error", VStr (exn_str e));
            ("status", failed);
            ("message", VStr ("Multimer prediction failed: " +:+ exn_str e))])
    t.
Proof.
  unfold predict_multimer, dict_index.
  rewrite Hseq, bind_lift_Ok, Hlen, bind_lift_Ok, Hkey. cbn [negb]. reduce.
  rewrite Hiter, try_except_lift_Ok, Hchains, try_except_lift_Ok. reflexivity.
Qed.

Lemma predict_multimer_transport_fails e :
  net t submission = Raise e ->
  predict_multimer self config t =
  (Ok [("error", VStr (exn_str e));
       ("status", failed);
       ("message", VStr ("Multimer prediction failed: " +:+ exn_str e))],
   t ++ [EHttp submission]).
Proof.
  intros Hnet. rewrite predict_multimer_unfolds.
  unfold try_except, bind at 1, http. rewrite Hnet. reflexivity.
Qed.

Lemma predict_multimer_accepted_unreadable r e :
  net t submission = Ok r -> status_code r = 202 ->
  job_id_of r = Raise e ->
  predict_multimer self config t =
  (Ok [("error", VStr (exn_str e));
       ("status", failed);
       ("message", VStr ("Multimer prediction failed: " +:+ exn_str e))],
   t ++ [EHttp submission]).
Proof.
  intros Hnet Hcode Hjob. rewrite predict_multimer_unfolds.
  unfold try_except, bind at 1, http. rewrite Hnet. reduce.
  rewrite Hcode, Z.eqb_refl, (job_id_of_Raise r e _ _ Hjob). reflexivity.
Qed.

Lemma predict_multimer_accepted r job_id :
  net t submission = Ok r -> status_code r = 202 ->
  job_id_of r = Ok job_id ->
  predict_multimer self config t =
  _poll_job_status self job_id (auth_headers self) (t ++ [EHttp submission]).
Proof.
  intros Hnet Hcode Hjob. rewrite predict_multimer_unfolds.
  unfold try_except, bind at 1, http. rewrite Hnet. reduce.
  rewrite Hcode, Z.eqb_refl, (job_id_of_Ok r job_id _ _ Hjob).
  destruct (poll_job_status_returns_tagged self job_id (auth_headers self)
              (t ++ [EHttp submission])) as (d & t' & E & _).
  now rewrite E.
Qed.

End Multimer.

End SubmissionOutcomes.

Section SubmissionTheorems.
Context {rt : Runtime}.
Variable self : AlphaFoldBridge.
Hypothesis Hkey : truthy (api_key self) = true.

(** X10: when the transport fails on the submission itself, nothing is
    retried and nothing is polled: that one call is the only one, and the
    operation returns a failure record whose 'error' is the exception's
    text.  ([predict_structure] reaches its submission when its job name
    can be formatted for the log line.) *)
Theorem submission_transport_failure_is_reported (e : exn) :
  (forall config sequence t,
      dict_lookup config "sequence" = Some sequence ->
      py_eq_str (dict_get config "mode" (VStr "api")) "api" = true ->
      str_raises (dict_get config "job_name" (VStr "holoscript_prediction")) = None ->
      let line := submitting_line (dict_get config "job_name" (VStr "holoscript_prediction")) in
      let submission :=
        submit_query self (structure_payload sequence
                             (dict_get config "num_models" (VInt 5))
                             (dict_get config "use_templates" (VBool false))) in
      net (t ++ [EPrint line]) submission = Raise e ->
      predict_structure self config t =
      (Ok [("error", VStr (exn_str e));
           ("status", failed);
           ("message", VStr ("AlphaFold API prediction failed: " +:+ exn_str e))],
       t ++ [EPrint line; EHttp submission])) /\
  (forall config sequences n items chains t,
      dict_lookup config "sequences" = Some sequences ->
      py_len sequences = Ok n ->
      py_iter sequences = Ok items ->
      build_chains (dict_get config "stoichiometry" (VList (repeat (VInt 1) n)))
                   0 items [] = Ok chains ->
      let submission := submit_query self (multimer_payload chains) in
      net t submission = Raise e ->
      predict_multimer self config t =
      (Ok [("error", VStr (exn_str e));
           ("status", failed);
           ("message", VStr ("Multimer prediction failed: " +:+ exn_str e))],
       t ++ [EHttp submission])).
Proof.
  split.
  - intros config sequence t Hseq Hmode Hfmt line submission Hnet.
    now apply predict_structure_transport_fails.
  - intros config sequences n items chains t Hseq Hlen Hiter Hchains submission Hnet.
    now apply (predict_multimer_transport_fails self Hkey config sequences n items).
Qed.

(** X11: when the submission is answered 202 with a JSON object, the
    operation's outcome is the poller's, run for the job id the object
    names ([None] when it has no 'jobId') with the bearer headers of the
    submission.  ([predict_structure] reaches its submission when its job
    name can be formatted for the log line.) *)
Theorem accepted_submission_hands_over_to_the_poller (r : response) (d : dict) :
  status_code r = 202 -> json r = Ok (VDict d) ->
  let job_id := dict_get d "jobId" VNone in
  (forall config sequence t,
      dict_lookup config "sequence" = Some sequence ->
      py_eq_str (dict_get config "mode" (VStr "api")) "api" = true ->
      str_raises (dict_get config "job_name" (VStr "holoscript_prediction")) = None ->
      let line := submitting_line (dict_get config "job_name" (VStr "holoscript_prediction")) in
      let submission :=
        submit_query self (structure_payload sequence
                             (dict_get config "num_models" (VInt 5))
                             (dict_get config "use_templates" (VBool false))) in
      net (t ++ [EPrint line]) submission = Ok r ->
      predict_structure self config t =
      _poll_job_status self job_id (auth_headers self)
        (t ++ [EPrint line; EHttp submission;
               EPrint ("Job ID: " +:+ py_str job_id +:+ ". Polling for completion...")])) /\
  (forall config sequences n items chains t,
      dict_lookup config "sequences" = Some sequences ->
      py_len sequences = Ok n ->
      py_iter sequences = Ok items ->
      build_chains (dict_get config "stoichiometry" (VList (repeat (VInt 1) n)))
                   0 items [] = Ok chains ->
      let submission := submit_query self (multimer_payload chains) in
      net t submission = Ok r ->
      predict_multimer self config t =
      _poll_job_status self job_id (auth_headers self) (t ++ [EHttp submission])).
Proof.
  intros Hcode Hjson job_id.
  assert (Hjob : job_id_of r = Ok job_id) by (unfold job_id_of; now rewrite Hjson).
  split.
  - intros config sequence t Hseq Hmode Hfmt line submission Hnet.
    now apply (predict_structure_accepted self Hkey config sequence t Hseq Hmode
                 Hfmt r).
  - intros config sequences n items chains t Hseq Hlen Hiter Hchains submission Hnet.
    now apply (predict_multimer_accepted self Hkey config sequences n items chains t
                 Hseq Hlen Hiter Hchains r).
Qed.

(** X12: when the submission is answered 202 but the body does not decode,
    or decodes to something that is not a JSON object, no status query is
    made: the operation returns a failure record with the exception's text
    after its one transport call.  ([predict_structure] reaches its
    submission when its job name can be formatted for the log line.) *)
Theorem accepted_submission_with_unreadable_body_fails (r : response) (e : exn) :
  status_code r = 202 ->
  (json r = Raise e \/
   exists v, json r = Ok v /\ (forall d, v <> VDict d) /\ e = AttributeError v "get") ->
  (forall config sequence t,
      dict_lookup config "sequence" = Some sequence ->
      py_eq_str (dict_get config "mode" (VStr "api")) "api" = true ->
      str_raises (dict_get config "job_name" (VStr "holoscript_prediction")) = None ->
      let line := submitting_line (dict_get config "job_name" (VStr "holoscript_prediction")) in
      let submission :=
        submit_query self (structure_payload sequence
                             (dict_get config "num_models" (VInt 5))
                             (dict_get config "use_templates" (VBool false))) in
      net (t ++ [EPrint line]) submission = Ok r ->
      predict_structure self config t =
      (Ok [("error", VStr (exn_str e));
           ("status", failed);
           ("message", VStr ("AlphaFold API prediction failed: " +:+ exn_str e))],
       t ++ [EPrint line; EHttp submission])) /\
  (forall config sequences n items chains t,
      dict_lookup config "sequences" = Some sequences ->
      py_len sequences = Ok n ->
      py_iter sequences = Ok items ->
      build_chains (dict_get config "stoichiometry" (VList (repeat (VInt 1) n)))
                   0 items [] = Ok chains ->
      let submission := submit_query self (multimer_payload chains) in
      net t submission = Ok r ->
      predict_multimer self config t =
      (Ok [("error", VStr (exn_str e));
           ("status", failed);
           ("message", VStr ("Multimer prediction failed: " +:+ exn_str e))],
       t ++ [EHttp submission])).
Proof.
  intros Hcode Hbody.
  assert (Hjob : job_id_of r = Raise e).
  { unfold job_id_of. destruct Hbody as [-> | (v & -> & Hv & ->)]; [reflexivity|].
    destruct v as [| | | | | |d]; try reflexivity. now destruct (Hv d). }
  split.
  - intros config sequence t Hseq Hmode Hfmt line submission Hnet.
    now apply (predict_structure_accepted_unreadable self Hkey config sequence t
                 Hseq Hmode Hfmt r).
  - intros config sequences n items chains t Hseq Hlen Hiter Hchains submission Hnet.
    now apply (predict_multimer_accepted_unreadable self Hkey config sequences n
                 items chains t Hseq Hlen Hiter Hchains r).
Qed.

(** X14: with a credential and in remote mode, [predict_structure] first
    formats the job name for its log line.  When that succeeds, the log
    line and then the submission are the first events: a payload with the
    sequence as its single chain, the 'num_models' entry (5 when absent)
    and the 'use_templates' entry (False when absent), the preset being
    'monomer' exactly when the model count equals 1.  When it raises,
    nothing is logged or submitted and the failure record carries the
    exception's text. *)
Theorem structure_submission_comes_first
    (config : dict) (sequence : pyval) (t : trace) :
  dict_lookup config "sequence" = Some sequence ->
  py_eq_str (dict_get config "mode" (VStr "api")) "api" = true ->
  let job_name := dict_get config "job_name" (VStr "holoscript_prediction") in
  let num_models := dict_get config "num_models" (VInt 5) in
  let use_templates := dict_get config "use_templates" (VBool false) in
  let payload :=
    VDict [("sequences", VList [VDict [("sequence", sequence)]]);
           ("modelPreset", VStr (if py_eq_int num_models 1 then "monomer" else "multimer"));
           ("numPredictions", num_models);
           ("useTemplates", use_templates)] in
  (str_raises job_name = None ->
   exists ext,
     snd (predict_structure self config t) =
     t ++ EPrint ("Submitting prediction job: " +:+ py_str job_name)
       :: EHttp (submit_query self payload) :: ext) /\
  (forall e,
      str_raises job_name = Some e ->
      predict_structure self config t =
      (Ok [("error", VStr (exn_str e));
           ("status", failed);
           ("message", VStr ("AlphaFold API prediction failed: " +:+ exn_str e))], t)).
Proof.
  intros Hseq Hmode job_name num_models use_templates payload. split.
  - intros Hfmt.
    rewrite (predict_structure_unfolds self Hkey config sequence t Hseq Hmode Hfmt).
    match goal with
    | |- exists ext, snd (try_except (bind (http ?q) ?k) ?h ?t0) = _ =>
        destruct (try_http_first q k h t0) as [ext E]
    end.
    + intros r. destruct (status_code r =? 202); repeat extends_step.
      apply poll_job_status_extends.
    + intros e. apply extends_ret.
    + exists ext. rewrite E, <- app_assoc. reflexivity.
  - intros e Hfmt.
    now apply (predict_structure_job_name_raises self Hkey config sequence t e).
Qed.

(** X15: sequences of length zero are not turned away: [predict_multimer]
    submits a payload whose 'sequences' entry is the empty list, whatever
    the stoichiometry entry holds. *)
Theorem empty_sequences_are_submitted
    (config : dict) (sequences : pyval) (t : trace) :
  dict_lookup config "sequences" = Some sequences ->
  py_len sequences = Ok 0%nat ->
  exists ext,
    snd (predict_multimer self config t) =
    t ++ EHttp (submit_query self
                  (VDict [("sequences", VList []);
                          ("modelPreset", VStr "multimer");
                          ("numPredictions", VInt 5)]))
      :: ext.
Proof.
  intros Hseq Hlen.
  assert (Hiter : py_iter sequences = Ok []).
  { destruct sequences as [| | | |s|l|d]; try discriminate Hlen;
      cbn in Hlen; injection Hlen as Hlen.
    - now destruct s.
    - now destruct l.
    - now destruct d. }
  rewrite (predict_multimer_unfolds self Hkey config sequences 0 [] [] t
             Hseq Hlen Hiter eq_refl).
  apply try_http_first.
  - intros r. destruct (status_code r =? 202); repeat extends_step.
    apply poll_job_status_extends.
  - intros e. apply extends_ret.
Qed.

End SubmissionTheorems.

(** ** The further properties on concrete inputs *)

Lemma completed_status_witness :
  exists tk,
    poll_loop (rt := rt_completes)
      (status_url (rt := rt_completes) demo_bridge demo_job)
      demo_job (VDict []) 2 [] = (Ok None, tk) /\
    http_count tk = 2%nat /\
    _poll_job_status (rt := rt_completes) demo_bridge demo_job (VDict []) [] =
      (Ok [("status", VStr "success");
           ("job_id", VStr "job-1");
           ("pdb_data", VStr "ATOM      1  N   MET A   1");
           ("confidence_scores", VList [VFloat 91.5; VFloat 88.25]);
           ("mean_plddt", VFloat 89.875);
           ("pae_data", VNone)],
       tk ++ [EHttp (status_query (rt := rt_completes) demo_bridge demo_job (VDict []));
              EHttp (artifact_query (VStr "https://files.example/model.pdb"));
              EHttp (artifact_query (VStr "https://files.example/confidence.json"))]).
Proof.
  eexists. split; [vm_compute; reflexivity|]. split; [reflexivity|].
  refine (proj1 (completed_status_assembles_result
                   (rt := rt_completes) demo_bridge demo_job (VDict [])
                   2 [] _ completed_response
                   (mkResponse 200 "ATOM      1  N   MET A   1" (Raise JSONDecodeError))
                   (mkResponse 200 "<confidence body>" (Ok (VDict confidence_payload)))
                   completed_payload confidence_payload _ _ _ _ _ _ _ _ _)).
  - unfold max_polls. lia.
  - vm_compute. reflexivity.
  - reflexivity.
  - reflexivity.
  - reflexivity.
  - reflexivity.
  - reflexivity.
  - reflexivity.
  - reflexivity.
Defined.

Lemma transport_errors_witness :
  (forall t', exists e,
      net (Runtime := rt_two_failures) t'
          (status_query (rt := rt_two_failures) demo_bridge demo_job (VDict [])) =
      Raise e) /\
  poll_loop (rt := rt_two_failures)
    (status_url (rt := rt_two_failures) demo_bridge demo_job) demo_job (VDict []) 1 [] =
    (Ok None,
     [EHttp (status_query (rt := rt_two_failures) demo_bridge demo_job (VDict []));
      EPrint "Polling error: connection refused. Retrying...";
      ESleep 10]) /\
  (exists t_end,
      _poll_job_status (rt := rt_two_failures) demo_bridge demo_job (VDict []) [] =
        (Ok [("error", VStr "Job timeout after 10 minutes");
             ("status", VStr "failed");
             ("job_id", VStr "job-1")], t_end) /\
      http_count t_end = 60%nat /\ waited t_end = 600) /\
  http_count (snd (_poll_job_status (rt := rt_offline) demo_bridge demo_job (VDict []) []))
    = 60%nat.
Proof.
  assert (H : forall t', exists e,
             net (Runtime := rt_two_failures) t'
                 (status_query (rt := rt_two_failures) demo_bridge demo_job (VDict [])) =
             Raise e).
  { intros t'. cbn [net rt_two_failures scripted].
    destruct (Nat.even (http_count t')); eexists; reflexivity. }
  split; [exact H|].
  destruct (transport_errors_use_the_same_budget
              (rt := rt_two_failures) demo_bridge demo_job (VDict []) [])
    as (Hstep & Hall & _).
  split; [apply (Hstep 0%nat [] ConnectionError); reflexivity|].
  split; [exact (Hall H)|].
  destruct (transport_errors_use_the_same_budget
              (rt := rt_offline) demo_bridge demo_job (VDict []) [])
    as (_ & _ & Hsame).
  rewrite (Hsame ConnectionError (fun _ => eq_refl)). reflexivity.
Defined.

Lemma unreadable_status_body_witness :
  poll_loop (rt := rt_status_garbled)
    (status_url (rt := rt_status_garbled) demo_bridge demo_job) demo_job (VDict []) 1 [] =
    (Ok None,
     [EHttp (status_query (rt := rt_status_garbled) demo_bridge demo_job (VDict []));
      EPrint "Polling error: Expecting value: line 1 column 1 (char 0). Retrying...";
      ESleep 10]) /\
  poll_loop (rt := rt_status_is_a_list)
    (status_url (rt := rt_status_is_a_list) demo_bridge demo_job) demo_job (VDict []) 1 [] =
    (Ok None,
     [EHttp (status_query (rt := rt_status_is_a_list) demo_bridge demo_job (VDict []));
      EPrint "Polling error: 'list' object has no attribute 'get'. Retrying...";
      ESleep 10]).
Proof.
  split.
  - refine (proj1 (unreadable_status_body_is_retried
                     (rt := rt_status_garbled) demo_bridge demo_job (VDict [])
                     0 [] [] (mkResponse 200 "<html>" (Raise JSONDecodeError)) _ _ _)
                  JSONDecodeError _); reflexivity.
  - refine (proj2 (unreadable_status_body_is_retried
                     (rt := rt_status_is_a_list) demo_bridge demo_job (VDict [])
                     0 [] [] (mkResponse 200 "[]" (Ok (VList []))) _ _ _)
                  (VList []) _ _); try reflexivity.
    intros d. discriminate.
Defined.

Lemma facade_records_witness :
  (exists d t',
      predict_structure (rt := rt_completes) demo_bridge
        [("sequence", VStr "MKTAYIAK"); ("sequences", VList [VStr "A"; VStr "B"])] [] =
      (Ok d, t') /\ (failure_record d \/ success_record d)) /\
  (exists d t',
      predict_multimer (rt := rt_completes) demo_bridge
        [("sequence", VStr "MKTAYIAK"); ("sequences", VList [VStr "A"; VStr "B"])] [] =
      (Ok d, t') /\ (failure_record d \/ success_record d)).
Proof.
  destruct (facade_records_are_well_formed (rt := rt_completes) demo_bridge
              [("sequence", VStr "MKTAYIAK"); ("sequences", VList [VStr "A"; VStr "B"])] [])
    as (Hshape & Hshape' & Hstructure & Hmultimer).
  split.
  - destruct (Hstructure (VStr "MKTAYIAK") eq_refl (or_introl eq_refl)) as (d & t' & E).
    exists d, t'. split; [exact E | exact (Hshape d t' E)].
  - destruct (Hmultimer (VList [VStr "A"; VStr "B"]) 2%nat eq_refl eq_refl)
      as (d & t' & E).
    exists d, t'. split; [exact E | exact (Hshape' d t' E)].
Defined.

Lemma unknown_mode_witness :
  predict_structure (rt := rt_offline) demo_bridge
    [("sequence", VStr "MKTAYIAK"); ("mode", VStr "batch")] [] =
    (Ok [("error", VStr "Unknown prediction mode: batch"); ("status", VStr "failed")], []) /\
  predict_structure (rt := rt_offline) demo_bridge
    [("sequence", VStr "MKTAYIAK"); ("mode", VInt ten_to_4300)] [] =
    (Raise digit_limit_error, []).
Proof.
  split.
  - exact (proj1 (unknown_mode_fails_without_transport (rt := rt_offline) demo_bridge
                    [("sequence", VStr "MKTAYIAK"); ("mode", VStr "batch")]
                    (VStr "MKTAYIAK") (VStr "batch") [] eq_refl eq_refl eq_refl eq_refl)
                 eq_refl).
  - apply (proj2 (unknown_mode_fails_without_transport (rt := rt_offline) demo_bridge
                    [("sequence", VStr "MKTAYIAK"); ("mode", VInt ten_to_4300)]
                    (VStr "MKTAYIAK") (VInt ten_to_4300) []
                    eq_refl eq_refl eq_refl eq_refl)).
    vm_compute. reflexivity.
Defined.

Lemma local_mode_witness :
  predict_structure (rt := rt_offline) demo_bridge
    [("sequence", VStr "MKTAYIAK"); ("mode", VStr "local")] [] =
  (Ok [("error", VStr "ColabFold not installed");
       ("status", VStr "failed");
       ("message", VStr "Install ColabFold: pip install colabfold")], []).
Proof.
  exact (local_mode_always_fails (rt := rt_offline) demo_bridge
           [("sequence", VStr "MKTAYIAK"); ("mode", VStr "local")]
           (VStr "MKTAYIAK") [] eq_refl eq_refl).
Defined.

Lemma multimer_reads_two_entries_witness :
  predict_multimer (rt := rt_rejected) demo_bridge
    [("sequences", VList [VStr "A"]); ("job_name", VStr "dimer"); ("num_models", VInt 1)] [] =
  predict_multimer (rt := rt_rejected) demo_bridge
    [("mode", VStr "local"); ("sequences", VList [VStr "A"])] [].
Proof.
  exact (multimer_reads_two_entries_only (rt := rt_rejected) demo_bridge
           [("sequences", VList [VStr "A"]); ("job_name", VStr "dimer"); ("num_models", VInt 1)]
           [("mode", VStr "local"); ("sequences", VList [VStr "A"])] [] eq_refl eq_refl).
Defined.

Lemma submission_transport_failure_witness :
  predict_structure (rt := rt_offline) demo_bridge [("sequence", VStr "MKTAYIAK")] [] =
    (Ok [("error", VStr "connection refused");
         ("status", VStr "failed");
         ("message", VStr "AlphaFold API prediction failed: connection refused")],
     [EPrint "Submitting prediction job: holoscript_prediction";
      EHttp (submit_query demo_bridge
               (structure_payload (VStr "MKTAYIAK") (VInt 5) (VBool false)))]) /\
  predict_multimer (rt := rt_offline) demo_bridge [("sequences", VList [VStr "A"])] [] =
    (Ok [("error", VStr "connection refused");
         ("status", VStr "failed");
         ("message", VStr "Multimer prediction failed: connection refused")],
     [EHttp (submit_query demo_bridge (multimer_payload [chain (VStr "A")]))]).
Proof.
  destruct (submission_transport_failure_is_reported (rt := rt_offline) demo_bridge
              eq_refl ConnectionError) as (Hstructure & Hmultimer).
  split.
  - apply (Hstructure [("sequence", VStr "MKTAYIAK")] (VStr "MKTAYIAK") []); reflexivity.
  - apply (Hmultimer [("sequences", VList [VStr "A"])] (VList [VStr "A"]) 1%nat
             [VStr "A"] [chain (VStr "A")] []); reflexivity.
Defined.

Lemma accepted_submission_witness :
  predict_structure (rt := rt_accepted_then_pending) demo_bridge
    [("sequence", VStr "MKTAYIAK")] [] =
  _poll_job_status (rt := rt_accepted_then_pending) demo_bridge (VStr "job-1")
    (auth_headers demo_bridge)
    [EPrint "Submitting prediction job: holoscript_prediction";
     EHttp (submit_query demo_bridge
              (structure_payload (VStr "MKTAYIAK") (VInt 5) (VBool false)));
     EPrint "Job ID: job-1. Polling for completion..."] /\
  predict_multimer (rt := rt_accepted_then_pending) demo_bridge
    [("sequences", VList [VStr "A"])] [] =
  _poll_job_status (rt := rt_accepted_then_pending) demo_bridge (VStr "job-1")
    (auth_headers demo_bridge)
    [EHttp (submit_query demo_bridge (multimer_payload [chain (VStr "A")]))].
Proof.
  destruct (accepted_submission_hands_over_to_the_poller
              (rt := rt_accepted_then_pending) demo_bridge eq_refl
              accepted_response [("jobId", VStr "job-1")] eq_refl eq_refl)
    as (Hstructure & Hmultimer).
  split.
  - apply (Hstructure [("sequence", VStr "MKTAYIAK")] (VStr "MKTAYIAK") []); reflexivity.
  - apply (Hmultimer [("sequences", VList [VStr "A"])] (VList [VStr "A"]) 1%nat
             [VStr "A"] [chain (VStr "A")] []); reflexivity.
Defined.

Lemma accepted_unreadable_witness :
  predict_structure (rt := rt_accepted_garbled) demo_bridge
    [("sequence", VStr "MKTAYIAK")] [] =
    (Ok [("error", VStr "Expecting value: line 1 column 1 (char 0)");
         ("status", VStr "failed");
         ("message",
          VStr "AlphaFold API prediction failed: Expecting value: line 1 column 1 (char 0)")],
     [EPrint "Submitting prediction job: holoscript_prediction";
      EHttp (submit_query demo_bridge
               (structure_payload (VStr "MKTAYIAK") (VInt 5) (VBool false)))]) /\
  predict_multimer (rt := rt_accepted_garbled) demo_bridge
    [("sequences", VList [VStr "A"])] [] =
    (Ok [("error", VStr "Expecting value: line 1 column 1 (char 0)");
         ("status", VStr "failed");
         ("message",
          VStr "Multimer prediction failed: Expecting value: line 1 column 1 (char 0)")],
     [EHttp (submit_query demo_bridge (multimer_payload [chain (VStr "A")]))]).
Proof.
  destruct (accepted_submission_with_unreadable_body_fails
              (rt := rt_accepted_garbled) demo_bridge eq_refl
              (mkResponse 202 "<html>" (Raise JSONDecodeError)) JSONDecodeError
              eq_refl (or_introl eq_refl))
    as (Hstructure & Hmultimer).
  split.
  - apply (Hstructure [("sequence", VStr "MKTAYIAK")] (VStr "MKTAYIAK") []); reflexivity.
  - apply (Hmultimer [("sequences", VList [VStr "A"])] (VList [VStr "A"]) 1%nat
             [VStr "A"] [chain (VStr "A")] []); reflexivity.
Defined.

Lemma structure_submission_witness :
  (exists ext,
      snd (predict_structure (rt := rt_rejected) demo_bridge
             [("sequence", VStr "MKTAYIAK"); ("num_models", VInt 1)] []) =
      EPrint "Submitting prediction job: holoscript_prediction"
        :: EHttp (submit_query demo_bridge
                    (VDict [("sequences", VList [VDict [("sequence", VStr "MKTAYIAK")]]);
                            ("modelPreset", VStr "monomer");
                            ("numPredictions", VInt 1);
                            ("useTemplates", VBool false)]))
        :: ext) /\
  predict_structure (rt := rt_rejected) demo_bridge
    [("sequence", VStr "MKTAYIAK"); ("job_name", VInt ten_to_4300)] [] =
    (Ok [("error", VStr (exn_str digit_limit_error));
         ("status", VStr "failed");
         ("message",
          VStr ("AlphaFold API prediction failed: " +:+ exn_str digit_limit_error))],
     []).
Proof.
  split.
  - exact (proj1 (structure_submission_comes_first (rt := rt_rejected) demo_bridge eq_refl
                    [("sequence", VStr "MKTAYIAK"); ("num_models", VInt 1)]
                    (VStr "MKTAYIAK") [] eq_refl eq_refl) eq_refl).
  - apply (proj2 (structure_submission_comes_first (rt := rt_rejected) demo_bridge eq_refl
                    [("sequence", VStr "MKTAYIAK"); ("job_name", VInt ten_to_4300)]
                    (VStr "MKTAYIAK") [] eq_refl eq_refl)).
    vm_compute. reflexivity.
Defined.

Lemma empty_sequences_witness :
  exists ext,
    snd (predict_multimer (rt := rt_rejected) demo_bridge
           [("sequences", VList []); ("stoichiometry", VNone)] []) =
    EHttp (submit_query demo_bridge
             (VDict [("sequences", VList []);
                     ("modelPreset", VStr "multimer");
                     ("numPredictions", VInt 5)]))
      :: ext.
Proof.
  exact (empty_sequences_are_submitted (rt := rt_rejected) demo_bridge eq_refl
           [("sequences", VList []); ("stoichiometry", VNone)] (VList []) []
           eq_refl eq_refl).
Defined.

(** ** Only a terminal status ends the polling early *)

Section Exhaustion.
Context {rt : Runtime}.
Variables (self : AlphaFoldBridge) (job_id headers : pyval).

Local Abbreviation url := (status_url self job_id).
Local Abbreviation query := (status_query self job_id headers).

Lemma reported_status_None (r : response) :
  reported_status r = None ->
  status_code r <> 200 \/
  (status_code r = 200 /\
   exists e, json r = Raise e \/
             exists v, json r = Ok v /\ (forall d, v <> VDict d) /\
                       e = AttributeError v "get").
Proof.
  unfold reported_status. destruct (Z.eqb_spec (status_code r) 200) as [E|E];
    [|now left].
  intros H. right. split; [exact E|].
  destruct (json r) as [v|e]; [|exists e; now left].
  exists (AttributeError v "get"). right. exists v.
  repeat split. intros d ->. discriminate H.
Qed.

(** An attempt whose answer keeps the polling going falls through after its
    one transport call. *)
Lemma poll_attempt_keeps_polling t :
  keeps_polling (net t query) ->
  exists ext,
    poll_attempt url job_id headers t = (Ok None, t ++ EHttp query :: ext) /\
    http_count ext = 0%nat.
Proof.
  unfold keeps_polling. destruct (net t query) as [r|e] eqn:Hnet.
  - destruct (reported_status r) as [status|] eqn:Hst.
    + intros Hterm. eexists. split.
      * apply (poll_attempt_waiting self job_id headers t r status); eauto.
      * reflexivity.
    + intros _. destruct (reported_status_None r Hst) as [Hcode | (Hcode & e & Hbody)].
      * exists []. split; [|reflexivity].
        apply (poll_attempt_not_200 self job_id headers t r); assumption.
      * eexists. split.
        -- apply (poll_attempt_unreadable_body self job_id headers t r e); auto.
        -- reflexivity.
  - intros _. eexists. split.
    + exact (poll_attempt_query_raises self job_id headers t e Hnet).
    + reflexivity.
Qed.

Lemma for_each_counts_calls {A R} (body : A -> M (option R)) :
  (forall x t, exists t',
      body x t = (Ok None, t') /\ http_count t' = S (http_count t)) ->
  forall xs t, exists t',
      for_each xs body t = (Ok None, t') /\
      http_count t' = (http_count t + List.length xs)%nat.
Proof.
  intros Hbody. induction xs as [|x xs IH]; intros t; cbn [for_each].
  - exists t. split; [reflexivity | cbn; lia].
  - destruct (Hbody x t) as (t1 & E1 & H1).
    destruct (IH t1) as (t2 & E2 & H2).
    exists t2. split.
    + unfold bind. now rewrite E1.
    + cbn [List.length]. lia.
Qed.

(** X16: as long as no status query is answered with a status of
    'completed' or 'failed' (the answers may be transport failures, other
    codes than 200, unreadable bodies or any other status, in any mix),
    the poller uses all 60 attempts, one status query each, and returns
    the timeout record. *)
Theorem only_terminal_status_ends_polling (t : trace) :
  (forall t', keeps_polling (net t' query)) ->
  exists t_end,
    _poll_job_status self job_id headers t = (Ok (timeout_result job_id), t_end) /\
    http_count t_end = (http_count t + 60)%nat.
Proof.
  intros Hkeeps.
  destruct (for_each_counts_calls
              (fun _ : nat => poll_attempt url job_id headers)) with
    (xs := seq 0 max_polls) (t := t) as (t_end & E & Hcount).
  - intros _ t'. destruct (poll_attempt_keeps_polling t' (Hkeeps t')) as (ext & E & Hext).
    eexists. split; [exact E|].
    replace (t' ++ EHttp query :: ext) with ((t' ++ [EHttp query]) ++ ext)
      by (now rewrite <- app_assoc).
    rewrite http_count_app, http_count_snoc_http, Hext. lia.
  - exists t_end. split.
    + unfold _poll_job_status, poll_loop. reduce. fold url. unfold bind.
      now rewrite E.
    + now rewrite length_seq in Hcount.
Qed.

End Exhaustion.

Lemma only_terminal_status_witness :
  (forall t',
      keeps_polling
        (net (Runtime := rt_never_terminal) t'
             (status_query (rt := rt_never_terminal) demo_bridge demo_job (VDict [])))) /\
  exists t_end,
    _poll_job_status (rt := rt_never_terminal) demo_bridge demo_job (VDict []) [] =
      (Ok (timeout_result demo_job), t_end) /\
    http_count t_end = 60%nat.
Proof.
  assert (H : forall t',
             keeps_polling
               (net (Runtime := rt_never_terminal) t'
                    (status_query (rt := rt_never_terminal) demo_bridge demo_job (VDict [])))).
  { intros t'. cbn [net rt_never_terminal scripted].
    destruct (http_count t' mod 5)%nat as [|[|[|[|n]]]];
      first [exact I | reflexivity]. }
  split; [exact H|].
  exact (only_terminal_status_ends_polling (rt := rt_never_terminal)
           demo_bridge demo_job (VDict []) [] H).
Defined.

(** ** A stoichiometry that cannot be used *)

Lemma build_chains_bad_count (c : pyval) (post : list pyval) (e : exn) :
  py_range c = Raise e ->
  forall (pre : list Z) (items : list pyval) (done : list Z) (acc : list pyval),
    (List.length pre < List.length items)%nat ->
    build_chains (VList (map VInt (done ++ pre) ++ c :: post))
                 (List.length done) items acc = Raise e.
Proof.
  intros Hrange. induction pre as [|z pre IH]; intros items done acc Hlen;
    (destruct items as [|seq items]; [cbn in Hlen; lia|]); cbn [build_chains py_getitem].
  - rewrite app_nil_r.
    replace (List.length done) with (List.length (map VInt done)) by apply length_map.
    now rewrite nth_error_middle, Hrange.
  - rewrite map_app, <- app_assoc. cbn [map app].
    replace (List.length done) with (List.length (map VInt done)) at 1
      by apply length_map.
    rewrite nth_error_middle. cbn [py_range].
    replace (map VInt done ++ VInt z :: map VInt pre ++ c :: post)
      with (map VInt ((done ++ [z]) ++ pre) ++ c :: post)
      by (rewrite !map_app, <- !app_assoc; reflexivity).
    replace (S (List.length done)) with (List.length (done ++ [z]))
      by (rewrite length_app; cbn; lia).
    apply IH. cbn in Hlen. lia.
Qed.

Section Stoichiometry.
Context {rt : Runtime}.
Variable self : AlphaFoldBridge.
Hypothesis Hkey : truthy (api_key self) = true.

Lemma predict_multimer_chains_raise (config : dict) (seqs : list pyval) (st : pyval)
    (e : exn) (t : trace) :
  dict_lookup config "sequences" = Some (VList seqs) ->
  dict_lookup config "stoichiometry" = Some st ->
  build_chains st 0 seqs [] = Raise e ->
  predict_multimer self config t =
  (Ok [("error", VStr (exn_str e));
       ("status", failed);
       ("message", VStr ("Multimer prediction failed: " +:+ exn_str e))], t).
Proof.
  intros Hseq Hst Hraise. unfold predict_multimer, dict_index.
  rewrite Hseq, bind_lift_Ok. cbn [py_len]. rewrite bind_lift_Ok, Hkey.
  cbn [negb]. reduce. unfold dict_get. rewrite Hst. cbn [py_iter].
  rewrite try_except_lift_Ok, Hraise, try_except_lift_Raise. reflexivity.
Qed.

(** X17: a stoichiometry that cannot serve stops [predict_multimer] before
    any transport call, with a failure record carrying the [TypeError]'s
    text: a value that cannot be indexed ([None], a number) when there is a
    sequence to look a count up for, or a list in which the count of one of
    the sequences is not an integer (the counts before it being integers). *)
Theorem unusable_stoichiometry_fails_without_transport
    (config : dict) (seqs : list pyval) (st : pyval) (t : trace) :
  dict_lookup config "sequences" = Some (VList seqs) ->
  dict_lookup config "stoichiometry" = Some st ->
  let failure e :=
    (Ok [("error", VStr (exn_str e));
         ("status", failed);
         ("message", VStr ("Multimer prediction failed: " +:+ exn_str e))], t) in
  (seqs <> [] ->
   (forall l, st <> VList l) -> (forall s, st <> VStr s) -> (forall d, st <> VDict d) ->
   predict_multimer self config t =
   failure (TypeError ("'" +:+ type_name st +:+ "' object is not subscriptable"))) /\
  (forall pre c post,
      st = VList (map VInt pre ++ c :: post) ->
      (List.length pre < List.length seqs)%nat ->
      (forall z, c <> VInt z) -> (forall b, c <> VBool b) ->
      predict_multimer self config t =
      failure (TypeError ("'" +:+ type_name c +:+
                          "' object cannot be interpreted as an integer"))).
Proof.
  intros Hseq Hst failure. split.
  - intros Hne Hl Hs Hd. apply (predict_multimer_chains_raise config seqs st); auto.
    destruct seqs as [|seq rest]; [contradiction|]. cbn [build_chains].
    destruct st as [| | | |s|l|d]; try reflexivity.
    + now destruct (Hs s).
    + now destruct (Hl l).
    + now destruct (Hd d).
  - intros pre c post -> Hlen Hz Hb.
    apply (predict_multimer_chains_raise config seqs
             (VList (map VInt pre ++ c :: post))); auto.
    apply (build_chains_bad_count c post _) with (done := []) (pre := pre); [|exact Hlen].
    destruct c as [|b|z| | | |]; try reflexivity.
    + now destruct (Hb b).
    + now destruct (Hz z).
Qed.

End Stoichiometry.

Lemma unusable_stoichiometry_witness :
  predict_multimer (rt := rt_offline) demo_bridge
    [("sequences", VList [VStr "A"; VStr "B"]); ("stoichiometry", VNone)] [] =
    (Ok [("error", VStr "'NoneType' object is not subscriptable");
         ("status", VStr "failed");
         ("message",
          VStr "Multimer prediction failed: 'NoneType' object is not subscriptable")], []) /\
  predict_multimer (rt := rt_offline) demo_bridge
    [("sequences", VList [VStr "A"; VStr "B"]);
     ("stoichiometry", VList [VInt 2; VFloat 1.5])] [] =
    (Ok [("error", VStr "'float' object cannot be interpreted as an integer");
         ("status", VStr "failed");
         ("message",
          VStr "Multimer prediction failed: 'float' object cannot be interpreted as an integer")], []).
Proof.
  split.
  - refine (proj1 (unusable_stoichiometry_fails_without_transport (rt := rt_offline)
                     demo_bridge eq_refl
                     [("sequences", VList [VStr "A"; VStr "B"]); ("stoichiometry", VNone)]
                     [VStr "A"; VStr "B"] VNone [] eq_refl eq_refl) _ _ _ _);
      intros; discriminate.
  - refine (proj2 (unusable_stoichiometry_fails_without_transport (rt := rt_offline)
                     demo_bridge eq_refl
                     [("sequences", VList [VStr "A"; VStr "B"]);
                      ("stoichiometry", VList [VInt 2; VFloat 1.5])]
                     [VStr "A"; VStr "B"] (VList [VInt 2; VFloat 1.5]) [] eq_refl eq_refl)
                  [2] (VFloat 1.5) [] eq_refl _ _ _).
    + cbn. lia.
    + intros; discriminate.
    + intros; discriminate.
Defined.

(** ** The self-test *)

(** X18: the self-test builds a bridge from the environment alone, makes no
    transport call and sleeps nowhere (the trace gains the one line of the
    dependency check), and prints the four status lines, then the hint
    about the API key exactly when the environment holds no non-empty key,
    then the hint about ColabFold exactly when it cannot be imported. *)
Theorem self_test_reports_and_hints
    {rt : Runtime} (environ : option string) (colabfold : bool) (t : trace) :
  exists line,
    main environ colabfold t =
    (Ok (["AlphaFold Bridge Status:";
          "  API Available: " +:+ py_str (VBool (truthy environ));
          "  ColabFold Available: " +:+ py_str (VBool colabfold);
          "  Python: " +:+ py_str (VStr sys_version)]
         ++ (if truthy environ then []
             else [newline +:+ "⚠ To use AlphaFold API, set environment variable:";
                   "  export ALPHAFOLD_API_KEY=your_api_key"])
         ++ (if colabfold then []
             else [newline +:+ "⚠ To use local prediction, install ColabFold:";
                   "  pip install colabfold"])),
     t ++ [EPrint line]).
Proof.
  unfold main, __init__, print, get_status, bind, ret, lift, py_or. cbn [truthy].
  destruct colabfold; eexists; cbn [api_key colabfold_available];
    destruct (truthy environ); reflexivity.
Qed.
